(** * The ARIMA tutorial's demo: synthetic series generator and
      fit-and-forecast driver

    A shallow embedding of the two functions of the notebook
    [Section_1_Introduction_tutorial.ipynb]:

    - [generate_arima_data], which assembles the AR and MA lag polynomials,
      calls the ARMA simulation routine of statsmodels, adds a linear trend
      and integrates the series by repeated cumulative sums;
    - [arima_data], the callback of the widget, which builds the coefficient
      vectors from the sliders, generates the series, decides whether a
      SARIMAX model is fit, and asks for predictions and a confidence band.

    Sample values are IEEE doubles in the notebook.  The development is
    written over an interface [Num] of the arithmetic the code uses, with two
    instances: [float] (binary64, what the notebook computes with) and [Z]
    (exact arithmetic).  The routines of numpy, statsmodels, pandas and
    matplotlib that the notebook calls are not part of it: they are
    variables of the section [Model], and every call the driver makes to them
    is recorded, with its arguments, in the trace of the run. *)

From Stdlib Require Import String Ascii DecimalString.
From Stdlib Require Import ZArith List Lia Bool.
From Stdlib Require Import Floats.PrimFloat.
Import ListNotations.

Set Warnings "-inexact-float".
Set Implicit Arguments.
Open Scope Z_scope.

(** ** Arithmetic of the samples *)

(** The operations the notebook applies to sample values: the constants 0
    and 1, [+], [-], [*], unary minus, the comparisons [==] and [<], and the
    test for NaN that [dropna] makes. *)
Class Num (R : Type) : Type := {
  zero : R;
  one : R;
  add : R -> R -> R;
  sub : R -> R -> R;
  mul : R -> R -> R;
  opp : R -> R;
  eqb : R -> R -> bool;
  ltb : R -> R -> bool;
  isnan : R -> bool
}.

(** Arithmetic where subtraction undoes addition exactly: no rounding. *)
Class ExactAdd (R : Type) {N : Num R} : Prop := {
  sub_zero_r : forall x : R, sub x zero = x;
  add_sub_cancel : forall c x : R, sub (add c x) c = x
}.

Arguments ExactAdd R {N}.

(** IEEE binary64, the arithmetic of numpy's float64 arrays. *)
#[export] Instance float_Num : Num float := {
  zero := 0%float;
  one := 1%float;
  add := PrimFloat.add;
  sub := PrimFloat.sub;
  mul := PrimFloat.mul;
  opp := PrimFloat.opp;
  eqb := PrimFloat.eqb;
  ltb := PrimFloat.ltb;
  isnan := PrimFloat.is_nan
}.

(** Exact integers. *)
#[export] Instance Z_Num : Num Z := {
  zero := 0;
  one := 1;
  add := Z.add;
  sub := Z.sub;
  mul := Z.mul;
  opp := Z.opp;
  eqb := Z.eqb;
  ltb := Z.ltb;
  isnan := fun _ => false
}.

(** Python's [x != 0]. *)
Definition nonzero {R : Type} {N : Num R} (x : R) : bool := negb (eqb x zero).

(** ** Exceptions *)

Inductive exn : Type :=
| ValueError
| IndexError.

Inductive outcome (A : Type) : Type :=
| Ok (a : A)
| Raise (e : exn).

Arguments Ok {A} a.
Arguments Raise {A} e.

(** ** Python sequences *)

Module Py.

(** The bound [k] of a slice of a sequence of length [len], as Python
    normalises it: a negative bound counts from the end, and the result is
    clipped to [0 .. len]. *)
Definition slice_bound (len k : Z) : nat :=
  Z.to_nat (Z.max 0 (Z.min len (if k <? 0 then k + len else k))).

(** [l[:k]] *)
Definition take {A : Type} (k : Z) (l : list A) : list A :=
  firstn (slice_bound (Z.of_nat (length l)) k) l.

(** [l[k:]] *)
Definition drop {A : Type} (k : Z) (l : list A) : list A :=
  skipn (slice_bound (Z.of_nat (length l)) k) l.

(** [l[k]]: a negative index counts from the end; out of range raises. *)
Definition index {A : Type} (l : list A) (k : Z) : outcome A :=
  let len := Z.of_nat (length l) in
  let k' := if k <? 0 then k + len else k in
  if (k' <? 0) || (len <=? k') then Raise IndexError
  else match nth_error l (Z.to_nat k') with
       | Some a => Ok a
       | None => Raise IndexError
       end.

(** [range(n)]: empty when [n <= 0]. *)
Definition range (n : Z) : list Z := map Z.of_nat (seq 0 (Z.to_nat n)).

End Py.

(** ** numpy arrays of samples *)

Section Numpy.

Context {R : Type} {N : Num R}.

(** [np.r_[1, -arparams]]: the zero-lag coefficient, then the negated
    coefficients. *)
Definition ar_poly (arparams : list R) : list R := one :: map opp arparams.

(** [np.r_[1, maparams]] *)
Definition ma_poly (maparams : list R) : list R := one :: maparams.

(** The running sum that [cumsum] accumulates from the left: the entry at
    index [i] is [((acc + y0) + y1) + ... + yi]. *)
Fixpoint cumsum_from (acc : R) (y : list R) : list R :=
  match y with
  | [] => []
  | x :: rest => let s := add acc x in s :: cumsum_from s rest
  end.

(** [np.cumsum(y)], [y.cumsum()]: the first entry is [y0] itself. *)
Definition cumsum (y : list R) : list R :=
  match y with
  | [] => []
  | x :: rest => x :: cumsum_from x rest
  end.

(** [np.repeat(x, n)]: a negative count is refused. *)
Definition np_repeat (x : R) (n : Z) : outcome (list R) :=
  if n <? 0 then Raise ValueError else Ok (repeat x (Z.to_nat n)).

Fixpoint zip_add (a b : list R) : list R :=
  match a, b with
  | x :: a', y :: b' => add x y :: zip_add a' b'
  | _, _ => []
  end.

(** [a + b] on one-dimensional arrays: elementwise on equal lengths, an
    array of length one is broadcast, any other pair of lengths is refused. *)
Definition np_add (a b : list R) : outcome (list R) :=
  if Nat.eqb (length a) (length b) then Ok (zip_add a b)
  else match a, b with
       | [x], _ => Ok (map (fun y => add x y) b)
       | _, [y] => Ok (map (fun x => add x y) a)
       | _, _ => Raise ValueError
       end.

(** [if lin_trend is not None:
       y = y + np.cumsum(np.repeat(lin_trend, n_samp))] *)
Definition add_trend (lin_trend : option R) (n_samp : Z) (y : list R)
  : outcome (list R) :=
  match lin_trend with
  | Some t =>
      match np_repeat t n_samp with
      | Ok ramp => np_add y (cumsum ramp)
      | Raise e => Raise e
      end
  | None => Ok y
  end.

(** [for i in range(i_order): y = y.cumsum()] *)
Definition integrate (i_order : Z) (y : list R) : list R :=
  fold_left (fun acc _ => cumsum acc) (Py.range i_order) y.

End Numpy.

(** ** The monthly timeline *)

Module Dates.

(** A pandas [Timestamp] at midnight. *)
Record Timestamp : Type := { year : Z; month : Z; day : Z }.

Definition same_date (a b : Timestamp) : bool :=
  (year a =? year b) && (month a =? month b) && (day a =? day b).

(** ['1990-01-01'], the start of the fake [DatetimeIndex].  The timeline
    here has no last date; pandas stops in the year 2262, some 3268 months
    after this origin. *)
Definition origin : Timestamp := {| year := 1990; month := 1; day := 1 |}.

(** [t + pd.DateOffset(months=m)].  The day of the month is kept: every date
    of the index is the first day of its month, which exists in all months. *)
Definition add_months (t : Timestamp) (m : Z) : Timestamp :=
  let k := year t * 12 + (month t - 1) + m in
  {| year := k / 12; month := k mod 12 + 1; day := day t |}.

(** [pd.date_range(start=start, freq='MS', periods=periods)] from a start that
    is itself the first day of a month. *)
Definition date_range (start : Timestamp) (periods : nat) : list Timestamp :=
  map (fun k => add_months start (Z.of_nat k)) (seq 0 periods).

Definition digits (n : Z) : string :=
  NilZero.string_of_uint (N.to_uint (Z.to_N n)).

(** Two digits, as [%m] and [%d] print them. *)
Definition two_digits (n : Z) : string :=
  if n <? 10 then String "0"%char (digits n) else digits n.

(** [t.strftime('%Y-%m-%d')] *)
Definition strftime (t : Timestamp) : string :=
  (digits (year t) ++ "-" ++ two_digits (month t) ++ "-" ++ two_digits (day t))%string.

End Dates.

Import Dates.

(** ** What a run does: the calls it makes and what it draws *)

(** A [DataFrame] column (or a [Series]) over the timeline. *)
Definition series (R : Type) : Type := list (Timestamp * R).

(** The arguments of [sm.tsa.SARIMAX(training, order=(p, d, q), trend=...,
    enforce_stationarity=..., enforce_invertibility=...)]. *)
Record sarimax_model (R : Type) : Type := {
  endog : series R;
  order : Z * Z * Z;
  trend : string;
  enforce_stationarity : bool;
  enforce_invertibility : bool
}.

(** The observable steps of a run, in the order the notebook makes them:
    what it prints, the library routines it calls with their arguments, and
    what it draws.  [Set_ylim ylim i_order] stands for
    [ax1.set_ylim((-ylim, ylim))] after [ylim = ylim*(10**(i_order))], and
    [Shade_forecast] for the two [fill_betweenx], one per panel.  Labels,
    colours, titles and the limits of the time axis are left out. *)
Inductive event (R : Type) : Type :=
| Call_ArmaProcess (ar ma : list R) (nobs : Z)
| Print_stationary (b : bool)
| Print_invertible (b : bool)
| Call_arma_generate_sample (ar ma : list R) (nsample : Z) (sigma : R) (burnin : Z)
| Print_generated (ar_order i_order ma_order : Z)
| Print_coeff (arparams maparams : list R)
| Plot_in_sample (s : series R)
| Plot_held_out (s : series R)
| Print_fit (p d q : Z)
| Call_SARIMAX (m : sarimax_model R)
| Call_fit (m : sarimax_model R)
| Call_get_prediction (start stop : string) (dynamic : bool)
| Call_conf_int (alpha : float)
| Plot_predicted (s : series R)
| Fill_between (band : list (Timestamp * (R * R)))
| Plot_residuals (s : series R)
| Set_ylim (ylim i_order : Z)
| Legend
| Shade_forecast (from to : Timestamp)
| Show
| Print_summary.

Arguments Print_stationary {R} b.
Arguments Print_invertible {R} b.
Arguments Print_generated {R} ar_order i_order ma_order.
Arguments Print_fit {R} p d q.
Arguments Call_get_prediction {R} start stop dynamic.
Arguments Call_conf_int {R} alpha.
Arguments Set_ylim {R} ylim i_order.
Arguments Legend {R}.
Arguments Shade_forecast {R} from to.
Arguments Show {R}.
Arguments Print_summary {R}.

(** A run: the trace of what it did, and its value or the exception that
    ended it. *)
Definition M (R A : Type) : Type := list (event R) * outcome A.

Definition ret {R A : Type} (a : A) : M R A := ([], Ok a).

Definition bind {R A B : Type} (m : M R A) (f : A -> M R B) : M R B :=
  match m with
  | (t, Ok a) => let (t', o) := f a in (t ++ t', o)
  | (t, Raise e) => (t, Raise e)
  end.

Definition emit {R : Type} (e : event R) : M R unit := ([e], Ok tt).

(** A pure step that may raise. *)
Definition lift {R A : Type} (o : outcome A) : M R A := ([], o).

Definition trace {R A : Type} (m : M R A) : list (event R) := fst m.
Definition result {R A : Type} (m : M R A) : outcome A := snd m.

Declare Scope run_scope.
Delimit Scope run_scope with run.
Notation "x <- c1 ;; c2" := (bind c1 (fun x => c2))
  (at level 61, c1 at next level, right associativity) : run_scope.
Notation "c1 ;; c2" := (bind c1 (fun _ => c2))
  (at level 61, right associativity) : run_scope.
Open Scope run_scope.

(** ** The notebook's two functions *)

Section Model.

Context {R : Type} {N : Num R}.

(** *** The library routines the notebook calls *)

(** The state of a numpy [RandomState]. *)
Variable rng : Type.
(** [np.random.RandomState(seed)] *)
Variable RandomState : Z -> rng.
(** [np.random.RandomState()]: a state seeded from the operating system. *)
Variable RandomState_unseeded : rng.
(** [sm.tsa.arma_generate_sample(ar, ma, nsample, sigma=sigma,
    distrvs=rng_state.randn, burnin=burnin)] *)
Variable arma_generate_sample : list R -> list R -> Z -> R -> rng -> Z -> list R.
(** [sm.tsa.ArmaProcess(ar, ma, nobs=n).isstationary] and [.isinvertible] *)
Variable isstationary : list R -> list R -> Z -> bool.
Variable isinvertible : list R -> list R -> Z -> bool.
(** The results of [model.fit()], and its [loglikelihood_burn]. *)
Variable results : Type.
Variable fit : sarimax_model R -> results.
Variable loglikelihood_burn : results -> Z.
(** [results.get_prediction(start=..., end=..., dynamic=...)], its
    [predicted_mean] and its [conf_int(alpha=...)]. *)
Variable prediction : Type.
Variable get_prediction : results -> string -> string -> bool -> prediction.
Variable predicted_mean : prediction -> series R.
Variable conf_int : prediction -> float -> list (Timestamp * (R * R)).

(** *** [generate_arima_data] *)

(** [if rng_state is None: rng_state = np.random.RandomState()] *)
Definition state_or_fresh (rng_state : option rng) : rng :=
  match rng_state with
  | None => RandomState_unseeded
  | Some s => s
  end.

Definition generate_arima_data
    (arparams maparams : list R) (i_order n_samp : Z)
    (rng_state : option rng) (sigma : R) (burnin : Z)
    (lin_trend : option R) (verbose : bool) : M R (list R) :=
  let rng_state := state_or_fresh rng_state in
  let ar := ar_poly arparams in
  let ma := ma_poly maparams in
  (if verbose then
     emit (Call_ArmaProcess ar ma n_samp) ;;
     emit (Print_stationary (isstationary ar ma n_samp)) ;;
     emit (Print_invertible (isinvertible ar ma n_samp))
   else ret tt) ;;
  emit (Call_arma_generate_sample ar ma n_samp sigma burnin) ;;
  let y := arma_generate_sample ar ma n_samp sigma rng_state burnin in
  y <- lift (add_trend lin_trend n_samp y) ;;
  ret (integrate i_order y).

(** *** [arima_data] *)

(** The keyword arguments of [arima_data]. *)
Record arima_args : Type := {
  n_samp : Z;
  ar_order : Z;
  ar_lag1 : R;
  ar_lag2 : R;
  ar_lag3 : R;
  ar_lag4 : R;
  i_order : Z;
  ma_order : Z;
  ma_lag1 : R;
  ma_lag2 : R;
  ma_lag3 : R;
  ma_lag4 : R;
  rand_state : Z;
  ylim : Z;
  p : Z;
  d : Z;
  q : Z;
  n_train : Z;
  n_forecast : Z;
  dynamic : bool;
  lin_trend : option R;
  verbose : bool
}.

(** Their default values. *)
Definition default_args : arima_args := {|
  n_samp := 120;
  ar_order := 0;
  ar_lag1 := zero;
  ar_lag2 := zero;
  ar_lag3 := zero;
  ar_lag4 := zero;
  i_order := 0;
  ma_order := 0;
  ma_lag1 := zero;
  ma_lag2 := zero;
  ma_lag3 := zero;
  ma_lag4 := zero;
  rand_state := 42;
  ylim := 5;
  p := 0;
  d := 0;
  q := 0;
  n_train := 108;
  n_forecast := 24;
  dynamic := false;
  lin_trend := None;
  verbose := true
|}.

(** [np.array([ar_lag1, ar_lag2, ar_lag3, ar_lag4])] *)
Definition ar_lags (a : arima_args) : list R :=
  [ar_lag1 a; ar_lag2 a; ar_lag3 a; ar_lag4 a].

(** [np.array([ma_lag1, ma_lag2, ma_lag3, ma_lag4])] *)
Definition ma_lags (a : arima_args) : list R :=
  [ma_lag1 a; ma_lag2 a; ma_lag3 a; ma_lag4 a].

(** [arparams = arparams[:ar_order]] *)
Definition arparams_of (a : arima_args) : list R :=
  Py.take (ar_order a) (ar_lags a).

(** [maparams = maparams[:ma_order]] *)
Definition maparams_of (a : arima_args) : list R :=
  Py.take (ma_order a) (ma_lags a).

(** The generation path of the driver: a generator seeded with
    [rand_state], then the call of [generate_arima_data]; [sigma] and
    [burnin] are left to their defaults, 1 and 10. *)
Definition generated_series (a : arima_args) : M R (list R) :=
  let rng_state := RandomState (rand_state a) in
  generate_arima_data (arparams_of a) (maparams_of a) (i_order a) (n_samp a)
    (Some rng_state) one 10 (lin_trend a) (verbose a).

(** [pd.DataFrame(data=y, columns=['value'],
    index=pd.date_range(start='1990-01-01', freq='MS', periods=len(y)))] *)
Definition DataFrame (y : list R) : series R :=
  combine (date_range origin (length y)) y.

(** The condition of the [if] that decides whether a model is fit. *)
Definition fitting_gate (a : arima_args) : bool :=
  (((0 <? ar_order a) && nonzero (ar_lag1 a))
   || ((0 <? ma_order a) && nonzero (ma_lag1 a)))
  && ((0 <? p a) || (0 <? q a)).

(** The [trend] given to SARIMAX: both branches of the [if] on [lin_trend]
    assign ['n'] (the ['t'] of the first branch is commented out). *)
Definition model_trend (lin_trend : option R) : string :=
  if match lin_trend with
     | Some t => ltb zero t
     | None => false
     end
  then "n"%string
  else "n"%string.

Definition lookup_date (t : Timestamp) (s : series R) : option R :=
  option_map snd (find (fun e => same_date (fst e) t) s).

(** [(df['value'] - pred_mean).dropna()]: the difference on the dates both
    series have; a date only one has gives NaN, and NaN rows are dropped. *)
Definition residuals (df pred_mean : series R) : series R :=
  flat_map
    (fun e =>
       match lookup_date (fst e) pred_mean with
       | Some m => let r := sub (snd e) m in
                   if isnan r then [] else [(fst e, r)]
       | None => []
       end)
    df.

(** [sm.tsa.SARIMAX(training, order=(p, d, q), trend=trend,
    enforce_stationarity=False, enforce_invertibility=False)] with
    [training = df.iloc[:n_train]['value']]. *)
Definition build_model (a : arima_args) (df : series R) : sarimax_model R :=
  let training := Py.take (n_train a) df in
  let trend := model_trend (lin_trend a) in
  {| endog := training;
     order := (p a, d a, q a);
     trend := trend;
     enforce_stationarity := false;
     enforce_invertibility := false |}.

(** The body of the [if]: the model, its fit, the prediction and the
    confidence band; it returns [pred_end]. *)
Definition fit_and_forecast (a : arima_args) (df : series R) : M R Timestamp :=
  emit (Print_fit (p a) (d a) (q a)) ;;
  let model := build_model a df in
  emit (Call_SARIMAX model) ;;
  let res := fit model in
  emit (Call_fit model) ;;
  pred_begin <- lift (Py.index (map fst df) (loglikelihood_burn res)) ;;
  split_date <- lift (Py.index (map fst df) (n_train a)) ;;
  let pred_end := add_months split_date (n_forecast a - 1) in
  let pred := get_prediction res (strftime pred_begin) (strftime pred_end)
                (dynamic a) in
  emit (Call_get_prediction (strftime pred_begin) (strftime pred_end)
          (dynamic a)) ;;
  let pred_mean := predicted_mean pred in
  let pred_ci := conf_int pred 0.05%float in
  emit (Call_conf_int 0.05%float) ;;
  emit (Plot_predicted pred_mean) ;;
  emit (Fill_between pred_ci) ;;
  emit (Plot_residuals (residuals df pred_mean)) ;;
  ret pred_end.

(** The rest of [arima_data], from the [DataFrame] of the generated series
    on: the two plots of the raw series, the model when the gate lets it be
    fit, and the scaling and shading of the panels. *)
Definition plot_and_fit (a : arima_args) (y : list R) : M R unit :=
  let df := DataFrame y in
  emit (Plot_in_sample (Py.take (n_train a) df)) ;;
  emit (Plot_held_out (Py.drop (n_train a - 1) df)) ;;
  fitting <- (if fitting_gate a
              then pred_end <- fit_and_forecast a df ;; ret (Some pred_end)
              else ret None) ;;
  emit (Set_ylim (ylim a) (i_order a)) ;;
  emit Legend ;;
  match fitting with
  | Some pred_end =>
      split_date <- lift (Py.index (map fst df) (n_train a)) ;;
      emit (Shade_forecast split_date pred_end) ;;
      emit Show ;;
      emit Print_summary
  | None => ret tt
  end.

Definition arima_data (a : arima_args) : M R unit :=
  emit (Print_generated (ar_order a) (i_order a) (ma_order a)) ;;
  emit (Print_coeff (arparams_of a) (maparams_of a)) ;;
  y <- generated_series a ;;
  plot_and_fit a y.

End Model.

(** ** Reading a trace *)

Section Traces.

Context {R : Type}.

(** The models the run constructed. *)
Definition models_built (t : list (event R)) : list (sarimax_model R) :=
  flat_map (fun e => match e with Call_SARIMAX m => [m] | _ => [] end) t.

(** The models the run estimated. *)
Definition models_fit (t : list (event R)) : list (sarimax_model R) :=
  flat_map (fun e => match e with Call_fit m => [m] | _ => [] end) t.

(** The prediction requests of the run: start, end and [dynamic]. *)
Definition prediction_requests (t : list (event R)) : list (string * string * bool) :=
  flat_map (fun e => match e with
                     | Call_get_prediction a b dyn => [(a, b, dyn)]
                     | _ => []
                     end) t.

(** The levels at which the run asked for a confidence interval. *)
Definition conf_int_levels (t : list (event R)) : list float :=
  flat_map (fun e => match e with Call_conf_int alpha => [alpha] | _ => [] end) t.

(** The reports on stationarity and invertibility. *)
Definition is_report (e : event R) : bool :=
  match e with
  | Print_stationary _ | Print_invertible _ => true
  | _ => false
  end.

(** A run without those reports. *)
Definition unreported (t : list (event R)) : list (event R) :=
  filter (fun e => negb (is_report e)) t.

Definition is_ok {A : Type} (o : outcome A) : bool :=
  match o with
  | Ok _ => true
  | Raise _ => false
  end.

Definition outcome_map {A B : Type} (f : A -> B) (o : outcome A) : outcome B :=
  match o with
  | Ok a => Ok (f a)
  | Raise e => Raise e
  end.

End Traces.

(** ** Quantities the specification speaks of *)

Section SpecSide.

Context {R : Type} {N : Num R}.

(** The discrete backward difference [y_i - y_(i-1)], the sample before the
    first one taken as 0: what the specification applies to undo one
    integration. *)
Fixpoint diff_from (prev : R) (y : list R) : list R :=
  match y with
  | [] => []
  | x :: rest => sub x prev :: diff_from x rest
  end.

Definition backward_diff (y : list R) : list R := diff_from zero y.

(** [t + t + ... + t] with [i + 1] terms, summed from the left. *)
Fixpoint running_multiple (t : R) (i : nat) : R :=
  match i with
  | O => t
  | S j => add (running_multiple t j) t
  end.

(** "At least one nonzero autoregressive-or-moving-average coefficient was
    used for generation". *)
Definition some_nonzero_coefficient (arparams maparams : list R) : bool :=
  existsb nonzero (arparams ++ maparams).

(** Two settings of the sliders that differ at most in lag coefficients
    beyond the declared orders, as far as generation is concerned. *)
Definition agree_up_to_orders (a a' : @arima_args R) : Prop :=
  n_samp a' = n_samp a
  /\ ar_order a' = ar_order a
  /\ ma_order a' = ma_order a
  /\ i_order a' = i_order a
  /\ rand_state a' = rand_state a
  /\ lin_trend a' = lin_trend a
  /\ verbose a' = verbose a
  /\ (forall k : nat, (k < Z.to_nat (ar_order a))%nat ->
      nth_error (ar_lags a') k = nth_error (ar_lags a) k)
  /\ (forall k : nat, (k < Z.to_nat (ma_order a))%nat ->
      nth_error (ma_lags a') k = nth_error (ma_lags a) k).

(** Two calls with the same seed and the same arguments of generation;
    the orders of the model, the split and the plot are free. *)
Definition same_generation (a a' : @arima_args R) : Prop :=
  rand_state a' = rand_state a
  /\ n_samp a' = n_samp a
  /\ ar_order a' = ar_order a
  /\ ar_lags a' = ar_lags a
  /\ i_order a' = i_order a
  /\ ma_order a' = ma_order a
  /\ ma_lags a' = ma_lags a
  /\ lin_trend a' = lin_trend a.

(** The same, and the settings of the fit and of the plot agree too. *)
Definition agree_elsewhere (a a' : @arima_args R) : Prop :=
  ylim a' = ylim a
  /\ p a' = p a /\ d a' = d a /\ q a' = q a
  /\ n_train a' = n_train a
  /\ n_forecast a' = n_forecast a
  /\ dynamic a' = dynamic a.

End SpecSide.

(** ** Stand-ins for the libraries, to run the notebook on concrete inputs *)

Module Reference.

Section Generic.

Context {R : Type} {N : Num R}.

(** A generator state: the draws it will deliver, taken cyclically. *)
Definition randn (s : list R) (n : nat) : list R :=
  map (fun k => nth (Nat.modulo k (length s)) s zero) (seq 0 n).

(** A seeded state: the table of draws, rotated by the seed. *)
Definition RandomState (table : list R) (seed : Z) : list R :=
  let k := seed mod Z.of_nat (length table) in
  Py.drop k table ++ Py.take k table.

Fixpoint dot (c h : list R) : R :=
  match c, h with
  | x :: c', v :: h' => add (mul x v) (dot c' h')
  | _, _ => zero
  end.

(** The ARMA recursion
    [y_t = ma_0 e_t + ma_1 e_(t-1) + ... - ar_1 y_(t-1) - ar_2 y_(t-2) - ...]
    over the innovations [eta]; [past_eta] and [past_y] hold the most recent
    value first. *)
Fixpoint arma_recursion (ma ar_lags past_eta past_y eta : list R) : list R :=
  match eta with
  | [] => []
  | e :: rest =>
      let y := sub (dot ma (e :: past_eta)) (dot ar_lags past_y) in
      y :: arma_recursion ma ar_lags (e :: past_eta) (y :: past_y) rest
  end.

(** Modelled from the spec: the ARMA simulation routine of statsmodels
    ([arma_generate_sample]) is a library the notebook imports.  Section 4.1,
    step 2: draw standard-normal innovations, scale them by [sigma], simulate
    the ARMA recursion for [nsample + burnin] steps and discard the burn-in
    prefix. *)
Definition arma_generate_sample (ar ma : list R) (nsample : Z) (sigma : R)
    (s : list R) (burnin : Z) : list R :=
  let eta := map (mul sigma) (randn s (Z.to_nat (nsample + burnin))) in
  Py.drop burnin (arma_recursion ma (tl ar) [] [] eta).

(** A stand-in for the diagnostics of [ArmaProcess]: it reports every
    process as stationary and invertible. *)
Definition always (ar ma : list R) (nobs : Z) : bool := true.

(** A stand-in for the estimator: the results are the model itself, the
    likelihood burns [d] observations, and nothing is predicted. *)
Definition fit (m : sarimax_model R) : sarimax_model R := m.

Definition loglikelihood_burn (m : sarimax_model R) : Z :=
  let '(_, d, _) := order m in d.

Definition get_prediction (res : sarimax_model R) (start stop : string)
    (dynamic : bool) : unit := tt.

Definition predicted_mean (pred : unit) : series R := [].

Definition conf_int (pred : unit) (alpha : float) : list (Timestamp * (R * R)) := [].

(** [generate_arima_data] and [arima_data] over the stand-ins. *)
Definition generate (table : list R) :=
  generate_arima_data (RandomState table 0) arma_generate_sample always always.

Definition series_of (table : list R) :=
  generated_series (RandomState table) (RandomState table 0)
    arma_generate_sample always always.

Definition run (table : list R) :=
  arima_data (RandomState table) (RandomState table 0)
    arma_generate_sample always always
    fit loglikelihood_burn get_prediction predicted_mean conf_int.

End Generic.

(** Draws for runs in binary64 and in exact integers. *)
Definition float_draws : list float :=
  [0.5; -1.25; 0.75; 0.1; -0.3; 1.5; -0.6; 0.2; 1.1; -0.9]%float.

Definition Z_draws : list Z := [3; -1; 4; 1; -5; 9; -2; 6].

(** A small call of the driver: twelve samples, eight of them for training,
    three steps of forecast, seed 42; the AR order, the first three AR
    sliders and the orders [p] and [d] of the model are left open, the MA
    part is off and [q = 0]. *)
Definition small_call (ar_order : Z) (lag1 lag2 lag3 : float) (p d : Z)
  : arima_args :=
  {| n_samp := 12;
     ar_order := ar_order;
     ar_lag1 := lag1;
     ar_lag2 := lag2;
     ar_lag3 := lag3;
     ar_lag4 := 0%float;
     i_order := 0;
     ma_order := 0;
     ma_lag1 := 0%float;
     ma_lag2 := 0%float;
     ma_lag3 := 0%float;
     ma_lag4 := 0%float;
     rand_state := 42;
     ylim := 5;
     p := p;
     d := d;
     q := 0;
     n_train := 8;
     n_forecast := 3;
     dynamic := false;
     lin_trend := None;
     verbose := true |}.

(** An AR(1) call that fits an ARIMA(1, 1, 0); the second slider is set
    though the declared order is 1. *)
Definition ar1_call : arima_args := small_call 1 0.5 0.7 0 1 1.

(** The same call with other values on the sliders beyond the order. *)
Definition ar1_call' : arima_args := small_call 1 0.5 (-0.2) 0.9 1 1.

(** A call of declared order 2 whose only nonzero coefficient is at
    lag 2, asking for an AR(1) fit. *)
Definition lag2_call : arima_args := small_call 2 0 0.5 0 1 0.

(** The series of [ar1_call] over the stand-ins. *)
Definition ar1_series : list float :=
  Eval vm_compute in
    match result (series_of float_draws ar1_call) with
    | Ok y => y
    | Raise _ => []
    end.

End Reference.

(** * Properties *)

(** ** Runs *)

Section Runs.

Context {R A B : Type}.

Lemma result_bind (m : M R A) (f : A -> M R B) :
  result (bind m f) =
  match result m with
  | Ok a => result (f a)
  | Raise e => Raise e
  end.
Proof.
  destruct m as [t [a | e]]; simpl; [destruct (f a) | ]; reflexivity.
Qed.

Lemma trace_bind (m : M R A) (f : A -> M R B) :
  trace (bind m f) =
  trace m ++ match result m with
             | Ok a => trace (f a)
             | Raise _ => []
             end.
Proof.
  destruct m as [t [a | e]]; simpl.
  - destruct (f a); reflexivity.
  - symmetry; apply app_nil_r.
Qed.

Lemma trace_emit_then (e : event R) (k : M R B) :
  trace (emit e ;; k) = e :: trace k.
Proof. destruct k; reflexivity. Qed.

Lemma result_emit_then (e : event R) (k : M R B) :
  result (emit e ;; k) = result k.
Proof. destruct k; reflexivity. Qed.

End Runs.

(** ** Python sequences and numpy arrays *)

Section Sequences.

Context {A : Type}.

Lemma slice_bound_in_range (len k : Z) :
  0 <= k <= len -> Py.slice_bound len k = Z.to_nat k.
Proof.
  intros Hk. unfold Py.slice_bound.
  destruct (Z.ltb_spec k 0); [lia | ].
  f_equal. lia.
Qed.

Lemma take_in_range (k : Z) (l : list A) :
  0 <= k <= Z.of_nat (length l) -> Py.take k l = firstn (Z.to_nat k) l.
Proof.
  intros Hk. unfold Py.take. now rewrite slice_bound_in_range.
Qed.

Lemma index_in_range (l : list A) (k : Z) (x : A) :
  0 <= k -> nth_error l (Z.to_nat k) = Some x -> Py.index l k = Ok x.
Proof.
  intros Hk Hx. unfold Py.index.
  assert (Hlen : (Z.to_nat k < length l)%nat)
    by (apply nth_error_Some; congruence).
  destruct (Z.ltb_spec k 0); [lia | ].
  destruct (Z.ltb_spec k 0); [lia | ].
  destruct (Z.leb_spec (Z.of_nat (length l)) k); [lia | ].
  simpl. now rewrite Hx.
Qed.

Lemma index_ok_inv (l : list A) (k : Z) (x : A) :
  Py.index l k = Ok x -> 0 <= k ->
  nth_error l (Z.to_nat k) = Some x /\ k < Z.of_nat (length l).
Proof.
  unfold Py.index. intros Hx Hk.
  destruct (Z.ltb_spec k 0); [lia | ].
  destruct (Z.ltb_spec k 0); [lia | ].
  destruct (Z.leb_spec (Z.of_nat (length l)) k); [discriminate | ].
  simpl in Hx.
  destruct (nth_error l (Z.to_nat k)); [ | discriminate].
  split; [congruence | lia].
Qed.

(** A slice up to a positive bound keeps the first element. *)
Lemma take_pos_head (k : Z) (x : A) (l : list A) :
  0 < k -> exists rest, Py.take k (x :: l) = x :: rest.
Proof.
  intros Hk. unfold Py.take, Py.slice_bound.
  destruct (Z.ltb_spec k 0); [lia | ].
  remember (Z.to_nat (Z.max 0 (Z.min (Z.of_nat (length (x :: l))) k))) as n
    eqn:Hn.
  destruct n as [| n].
  - simpl length in Hn. lia.
  - simpl. eauto.
Qed.

Lemma firstn_ext (n : nat) :
  forall l l' : list A,
  (forall k : nat, (k < n)%nat -> nth_error l' k = nth_error l k) ->
  firstn n l' = firstn n l.
Proof.
  induction n as [| n IH]; intros l l' Hk; [reflexivity | ].
  pose proof (Hk 0%nat ltac:(lia)) as H0.
  destruct l as [| x l], l' as [| x' l']; simpl in H0; try discriminate;
    [reflexivity | ].
  injection H0 as ->. simpl. f_equal.
  apply IH. intros k Hlt. apply (Hk (S k)). lia.
Qed.

Lemma range_length (n : Z) : length (Py.range n) = Z.to_nat n.
Proof. unfold Py.range. now rewrite length_map, length_seq. Qed.

End Sequences.

Section Arrays.

Context {R : Type} {N : Num R}.

Lemma fold_left_ignore (f : list R -> list R) (l : list Z) (y : list R) :
  fold_left (fun acc _ => f acc) l y = Nat.iter (length l) f y.
Proof.
  revert y. induction l as [| x l IH]; intros y; simpl; [reflexivity | ].
  rewrite IH. clear IH.
  induction (length l) as [| n IHn]; simpl; [reflexivity | ].
  now rewrite IHn.
Qed.

(** The loop over [range(i_order)] applies [cumsum] [i_order] times, and not
    at all when [i_order <= 0]. *)
Lemma integrate_iter (i_order : Z) (y : list R) :
  integrate i_order y = Nat.iter (Z.to_nat i_order) cumsum y.
Proof.
  unfold integrate. now rewrite fold_left_ignore, range_length.
Qed.

Lemma integrate_0 (y : list R) : integrate 0 y = y.
Proof. reflexivity. Qed.

Lemma cumsum_from_length (y : list R) :
  forall acc, length (cumsum_from acc y) = length y.
Proof.
  induction y as [| x y IH]; intros acc; simpl; [reflexivity | ].
  now rewrite IH.
Qed.

Lemma cumsum_length (y : list R) : length (cumsum y) = length y.
Proof.
  destruct y as [| x y]; simpl; [reflexivity | ].
  now rewrite cumsum_from_length.
Qed.

(** The running sum of a constant array from an accumulator that is already
    a running multiple. *)
Lemma cumsum_from_repeat (t : R) (n : nat) :
  forall (k i : nat), (i < n)%nat ->
  nth_error (cumsum_from (running_multiple t k) (repeat t n)) i
  = Some (running_multiple t (k + S i)).
Proof.
  induction n as [| n IH]; intros k i Hi; [lia | ].
  simpl. destruct i as [| i]; simpl.
  - now rewrite Nat.add_1_r.
  - change (add (running_multiple t k) t) with (running_multiple t (S k)).
    rewrite IH by lia. do 2 f_equal. lia.
Qed.

(** [np.cumsum(np.repeat(t, n))[i]] is the sum of [i + 1] copies of [t]. *)
Lemma cumsum_repeat (t : R) (n i : nat) :
  (i < n)%nat ->
  nth_error (cumsum (repeat t n)) i = Some (running_multiple t i).
Proof.
  intros Hi. destruct n as [| n]; [lia | ].
  simpl. destruct i as [| i]; [reflexivity | ].
  simpl. change t with (running_multiple t 0) at 1.
  rewrite cumsum_from_repeat by lia. reflexivity.
Qed.

Lemma zip_add_length (a : list R) :
  forall b, length a = length b -> length (zip_add a b) = length a.
Proof.
  induction a as [| u a IH]; intros [| v b] Hlen; simpl in *;
    try discriminate; [reflexivity | ].
  f_equal. apply IH. congruence.
Qed.

Lemma zip_add_nth (a b : list R) :
  forall (i : nat) (x y : R),
  nth_error a i = Some x -> nth_error b i = Some y ->
  nth_error (zip_add a b) i = Some (add x y).
Proof.
  revert b. induction a as [| u a IH]; intros b i x y Ha Hb.
  - destruct i; discriminate.
  - destruct b as [| v b]; [destruct i; discriminate | ].
    destruct i as [| i]; simpl in *.
    + congruence.
    + eauto.
Qed.

End Arrays.

(** ** The generator *)

(** Integers subtract what they add. *)
#[export] Instance Z_ExactAdd : ExactAdd Z.
Proof.
  split; intros; simpl; lia.
Qed.

Section Differencing.

Context {R : Type} {N : Num R} {E : ExactAdd R}.

Lemma diff_from_cumsum_from (y : list R) :
  forall acc, diff_from acc (cumsum_from acc y) = y.
Proof.
  induction y as [| x y IH]; intros acc; simpl; [reflexivity | ].
  now rewrite add_sub_cancel, IH.
Qed.

(** With exact arithmetic one backward difference undoes one [cumsum]. *)
Lemma backward_diff_cumsum (y : list R) : backward_diff (cumsum y) = y.
Proof.
  destruct y as [| x y]; [reflexivity | ].
  unfold backward_diff. simpl.
  now rewrite sub_zero_r, diff_from_cumsum_from.
Qed.

Lemma backward_diff_iter_cumsum (n : nat) :
  forall y : list R,
  Nat.iter n backward_diff (Nat.iter n cumsum y) = y.
Proof.
  induction n as [| n IH]; intros y; [reflexivity | ].
  rewrite Nat.iter_succ_r. simpl.
  now rewrite backward_diff_cumsum.
Qed.

End Differencing.

Section Generator.

Context {R : Type} {N : Num R}.

Variable rng : Type.
Variable RandomState_unseeded : rng.
Variable arma_generate_sample : list R -> list R -> Z -> R -> rng -> Z -> list R.
Variable isstationary : list R -> list R -> Z -> bool.
Variable isinvertible : list R -> list R -> Z -> bool.

Local Abbreviation generate :=
  (generate_arima_data RandomState_unseeded arma_generate_sample
     isstationary isinvertible).
Local Abbreviation state_of := (state_or_fresh RandomState_unseeded).

(** What the generator returns: the simulated sample, with the trend, then
    integrated. *)
Lemma generate_result arparams maparams i_order n_samp rng_state sigma burnin
    lin_trend verbose :
  result (generate arparams maparams i_order n_samp rng_state sigma burnin
            lin_trend verbose)
  = outcome_map (integrate i_order)
      (add_trend lin_trend n_samp
         (arma_generate_sample (ar_poly arparams) (ma_poly maparams) n_samp
            sigma (state_of rng_state) burnin)).
Proof.
  unfold generate_arima_data.
  rewrite result_bind.
  assert (Hv : result (if verbose
                       then emit (Call_ArmaProcess (ar_poly arparams)
                                    (ma_poly maparams) n_samp) ;;
                            emit (Print_stationary
                                    (isstationary (ar_poly arparams)
                                       (ma_poly maparams) n_samp)) ;;
                            emit (Print_invertible
                                    (isinvertible (ar_poly arparams)
                                       (ma_poly maparams) n_samp))
                       else ret tt) = Ok tt :> outcome unit)
    by (destruct verbose; reflexivity).
  rewrite Hv, result_emit_then, result_bind. simpl.
  destruct (add_trend _ _ _); reflexivity.
Qed.

(** What the generator does on the way: the diagnostics when [verbose], and
    one call of the simulation routine. *)
Lemma generate_trace arparams maparams i_order n_samp rng_state sigma burnin
    lin_trend verbose :
  trace (generate arparams maparams i_order n_samp rng_state sigma burnin
           lin_trend verbose)
  = (if verbose
     then [Call_ArmaProcess (ar_poly arparams) (ma_poly maparams) n_samp;
           Print_stationary
             (isstationary (ar_poly arparams) (ma_poly maparams) n_samp);
           Print_invertible
             (isinvertible (ar_poly arparams) (ma_poly maparams) n_samp)]
     else [])
    ++ [Call_arma_generate_sample (ar_poly arparams) (ma_poly maparams)
          n_samp sigma burnin].
Proof.
  unfold generate_arima_data.
  rewrite trace_bind.
  destruct verbose; simpl;
    destruct (add_trend _ _ _); reflexivity.
Qed.

(** C6.  The generator passes to the simulation routine the AR polynomial
    [1, -phi1, -phi2, ...] (a leading 1, then the negated coefficients) and
    the MA polynomial [1, theta1, theta2, ...] (a leading 1, then the
    coefficients as they are): these are the arguments of its one call of
    [arma_generate_sample], and its output is built from the sample that
    call returns. *)
Theorem lag_polynomials_assembled arparams maparams i_order n_samp rng_state
    sigma burnin lin_trend verbose :
  let ar := one :: map opp arparams in
  let ma := one :: maparams in
  let run := generate arparams maparams i_order n_samp rng_state sigma burnin
               lin_trend verbose in
  ar_poly arparams = ar
  /\ ma_poly maparams = ma
  /\ (forall k : nat,
        nth_error ar (S k) = option_map opp (nth_error arparams k)
        /\ nth_error ma (S k) = nth_error maparams k)
  /\ In (Call_arma_generate_sample ar ma n_samp sigma burnin) (trace run)
  /\ (forall ar' ma' n' sigma' burnin',
        In (Call_arma_generate_sample ar' ma' n' sigma' burnin') (trace run) ->
        ar' = ar /\ ma' = ma)
  /\ result run
     = outcome_map (integrate i_order)
         (add_trend lin_trend n_samp
            (arma_generate_sample ar ma n_samp sigma (state_of rng_state)
               burnin)).
Proof.
  intros ar ma run. subst run.
  split; [reflexivity | ]. split; [reflexivity | ].
  split; [ | split; [ | split]].
  - intros k. split; [ | reflexivity].
    simpl. now rewrite nth_error_map.
  - rewrite generate_trace. apply in_or_app. right. now left.
  - intros ar' ma' n' sigma' burnin' Hin.
    rewrite generate_trace in Hin.
    apply in_app_or in Hin. destruct Hin as [Hd | [Hc | []]].
    + destruct verbose; simpl in Hd; [ | contradiction].
      destruct Hd as [Hd | [Hd | [Hd | []]]]; discriminate.
    + inversion Hc. now split.
  - apply generate_result.
Qed.

(** C2, amended.  When a slope [t] is given and the simulation routine
    returns [n_samp] samples, the value added to the sample at step index
    [i] (counted from 0, before any integration) is the running sum of
    [i + 1] copies of [t]: [t] at the first sample, the [n_samp]-fold sum at
    the last. *)
Theorem trend_ramp_value arparams maparams n_samp rng_state sigma burnin
    (t : R) verbose (i : nat) (s : R) :
  let sample := arma_generate_sample (ar_poly arparams) (ma_poly maparams)
                  n_samp sigma (state_of rng_state) burnin in
  0 <= n_samp ->
  length sample = Z.to_nat n_samp ->
  nth_error sample i = Some s ->
  exists y,
    result (generate arparams maparams 0 n_samp rng_state sigma burnin
              (Some t) verbose) = Ok y
    /\ length y = Z.to_nat n_samp
    /\ nth_error y i = Some (add s (running_multiple t i)).
Proof.
  intros sample Hn Hlen Hs.
  assert (Hi : (i < Z.to_nat n_samp)%nat)
    by (rewrite <- Hlen; apply nth_error_Some; congruence).
  exists (zip_add sample (cumsum (repeat t (Z.to_nat n_samp)))).
  split; [ | split].
  - rewrite generate_result. fold sample.
    unfold add_trend, np_repeat.
    destruct (Z.ltb_spec n_samp 0); [lia | ].
    unfold np_add.
    rewrite cumsum_length, repeat_length, Hlen, Nat.eqb_refl.
    reflexivity.
  - rewrite zip_add_length; [exact Hlen | ].
    now rewrite cumsum_length, repeat_length.
  - apply zip_add_nth; [exact Hs | ].
    now apply cumsum_repeat.
Qed.

End Generator.

(** In exact integers the running sum of [i + 1] copies of [t] is
    [t * (i + 1)]. *)
Lemma running_multiple_Z (t : Z) (i : nat) :
  running_multiple t i = t * (Z.of_nat i + 1).
Proof.
  induction i as [| i IH]; simpl; [lia | ].
  rewrite IH. lia.
Qed.

(** Two binary64 numbers that [==] tells apart are different. *)
Ltac float_neq :=
  let E := fresh "E" in
  intro E;
  match type of E with
  | _ = ?c => apply (f_equal (fun z => PrimFloat.eqb z c)) in E
  end;
  vm_compute in E; discriminate E.

(** A run of the generator with slope 0.5 on three samples. *)
Lemma trend_ramp_value_witness :
  exists y,
    result (Reference.generate Reference.float_draws [] [] 0 3 None
              1%float 0 (Some 0.5%float) false) = Ok y
    /\ length y = 3%nat
    /\ nth_error y 2 = Some (add 0.75%float (running_multiple 0.5%float 2)).
Proof.
  apply (trend_ramp_value (R := float) (N := float_Num)
           (Reference.RandomState Reference.float_draws 0)
           Reference.arma_generate_sample Reference.always Reference.always
           [] [] (n_samp := 3) None 1%float 0 0.5%float false 2);
    [lia | reflexivity | reflexivity].
Defined.

(** C2 as stated fails.  With the noise scaled by [sigma = 0] the output is
    the ramp itself: for slope 0.5 on three samples it is [0.5, 1, 1.5],
    where [t * i] would give [0, 0.5, 1].  The first sample is raised by
    [t], not by 0, and the last by [3 t], not by [2 t]. *)
Lemma trend_starts_at_slope :
  result (Reference.generate Reference.float_draws [] [] 0 3 None
            0%float 0 (Some 0.5%float) false)
  = Ok [0.5; 1; 1.5]%float
  /\ map (fun i => 0.5 * i)%float [0; 1; 2]%float = [0; 0.5; 1]%float
  /\ (0.5 <> 0)%float
  /\ (1.5 <> 1)%float.
Proof.
  split; [vm_compute; reflexivity | ].
  split; [vm_compute; reflexivity | ].
  split; float_neq.
Qed.

Section ExactGenerator.

Context {R : Type} {N : Num R} {E : ExactAdd R}.

Variable rng : Type.
Variable RandomState_unseeded : rng.
Variable arma_generate_sample : list R -> list R -> Z -> R -> rng -> Z -> list R.
Variable isstationary : list R -> list R -> Z -> bool.
Variable isinvertible : list R -> list R -> Z -> bool.

Local Abbreviation generate :=
  (generate_arima_data RandomState_unseeded arma_generate_sample
     isstationary isinvertible).


End ExactGenerator.



(** ** The timeline of the generated series *)

Section Timeline.

Context {R : Type}.

Lemma map_fst_combine {A B : Type} (l1 : list A) :
  forall l2 : list B, length l1 = length l2 -> map fst (combine l1 l2) = l1.
Proof.
  induction l1 as [| x l1 IH]; intros [| y l2] Hlen; simpl in *;
    try discriminate; [reflexivity | ].
  f_equal. apply IH. congruence.
Qed.

Lemma date_range_length (start : Timestamp) (n : nat) :
  length (date_range start n) = n.
Proof. unfold date_range. now rewrite length_map, length_seq. Qed.

Lemma DataFrame_index (y : list R) :
  map fst (DataFrame y) = date_range origin (length y).
Proof.
  unfold DataFrame. apply map_fst_combine. apply date_range_length.
Qed.

Lemma date_range_nth (start : Timestamp) (n k : nat) :
  (k < n)%nat ->
  nth_error (date_range start n) k = Some (add_months start (Z.of_nat k)).
Proof.
  intros Hk. unfold date_range.
  rewrite nth_error_map, nth_error_seq.
  destruct (Nat.ltb_spec k n); [reflexivity | lia].
Qed.

(** [df.index[k]] is [k] months after the origin, for [k] within the
    series. *)
Lemma DataFrame_index_at (y : list R) (k : Z) :
  0 <= k < Z.of_nat (length y) ->
  Py.index (map fst (DataFrame y)) k = Ok (add_months origin k).
Proof.
  intros Hk. apply index_in_range; [lia | ].
  rewrite DataFrame_index, date_range_nth by lia.
  now rewrite Z2Nat.id by lia.
Qed.

(** The only date [df.index[k]] can be, for [k >= 0]. *)
Lemma DataFrame_index_inv (y : list R) (k : Z) (t : Timestamp) :
  Py.index (map fst (DataFrame y)) k = Ok t -> 0 <= k ->
  t = add_months origin k /\ k < Z.of_nat (length y).
Proof.
  intros Ht Hk.
  destruct (@index_ok_inv _ _ _ _ Ht Hk) as [_ Hlt].
  rewrite DataFrame_index, date_range_length in Hlt.
  rewrite DataFrame_index_at in Ht by lia.
  split; [congruence | exact Hlt].
Qed.

(** Months add up along the timeline. *)
Lemma add_months_origin (k m : Z) :
  add_months (add_months origin k) m = add_months origin (k + m).
Proof.
  unfold add_months. cbn [year month day].
  set (x := year origin * 12 + (month origin - 1)).
  assert (Hx : (x + k) / 12 * 12 + ((x + k) mod 12 + 1 - 1) + m = x + (k + m))
    by (pose proof (Z.div_mod (x + k) 12); lia).
  now rewrite Hx.
Qed.

End Timeline.

(** ** The driver *)

Section Driver.

Context {R : Type} {N : Num R}.

Variable rng : Type.
Variable RandomState : Z -> rng.
Variable RandomState_unseeded : rng.
Variable arma_generate_sample : list R -> list R -> Z -> R -> rng -> Z -> list R.
Variable isstationary : list R -> list R -> Z -> bool.
Variable isinvertible : list R -> list R -> Z -> bool.
Variable results : Type.
Variable fit : sarimax_model R -> results.
Variable loglikelihood_burn : results -> Z.
Variable prediction : Type.
Variable get_prediction : results -> string -> string -> bool -> prediction.
Variable predicted_mean : prediction -> series R.
Variable conf_int : prediction -> float -> list (Timestamp * (R * R)).

Local Abbreviation series_run :=
  (generated_series RandomState RandomState_unseeded arma_generate_sample
     isstationary isinvertible).
Local Abbreviation forecast :=
  (fit_and_forecast fit loglikelihood_burn get_prediction predicted_mean
     conf_int).
Local Abbreviation plots :=
  (plot_and_fit fit loglikelihood_burn get_prediction predicted_mean conf_int).
Local Abbreviation driver :=
  (arima_data RandomState RandomState_unseeded arma_generate_sample
     isstationary isinvertible fit loglikelihood_burn get_prediction
     predicted_mean conf_int).

(** *** What the fit does *)

Lemma fit_and_forecast_trace (a : arima_args) (df : series R) :
  trace (forecast a df)
  = Print_fit (p a) (d a) (q a)
    :: Call_SARIMAX (build_model a df)
    :: Call_fit (build_model a df)
    :: match Py.index (map fst df)
               (loglikelihood_burn (fit (build_model a df))),
             Py.index (map fst df) (n_train a) with
       | Ok pred_begin, Ok split_date =>
           let pred_end := add_months split_date (n_forecast a - 1) in
           let pred := get_prediction (fit (build_model a df))
                         (strftime pred_begin) (strftime pred_end)
                         (dynamic a) in
           [Call_get_prediction (strftime pred_begin) (strftime pred_end)
              (dynamic a);
            Call_conf_int 0.05%float;
            Plot_predicted (predicted_mean pred);
            Fill_between (conf_int pred 0.05%float);
            Plot_residuals (residuals df (predicted_mean pred))]
       | _, _ => []
       end.
Proof.
  unfold fit_and_forecast.
  destruct (Py.index (map fst df)
              (loglikelihood_burn (fit (build_model a df)))) as [b | e];
    destruct (Py.index (map fst df) (n_train a)) as [s | e'];
    reflexivity.
Qed.

Lemma fit_and_forecast_result (a : arima_args) (df : series R) :
  result (forecast a df)
  = match Py.index (map fst df)
            (loglikelihood_burn (fit (build_model a df))),
          Py.index (map fst df) (n_train a) with
    | Ok _, Ok split_date => Ok (add_months split_date (n_forecast a - 1))
    | Ok _, Raise e => Raise e
    | Raise e, _ => Raise e
    end.
Proof.
  unfold fit_and_forecast.
  destruct (Py.index (map fst df)
              (loglikelihood_burn (fit (build_model a df)))) as [b | e];
    destruct (Py.index (map fst df) (n_train a)) as [s | e'];
    reflexivity.
Qed.

(** *** What the run does after generation *)

Lemma plot_and_fit_trace (a : arima_args) (y : list R) :
  trace (plots a y)
  = Plot_in_sample (Py.take (n_train a) (DataFrame y))
    :: Plot_held_out (Py.drop (n_train a - 1) (DataFrame y))
    :: (if fitting_gate a
        then trace (forecast a (DataFrame y))
             ++ match result (forecast a (DataFrame y)) with
                | Ok pred_end =>
                    Set_ylim (ylim a) (i_order a) :: Legend
                    :: match Py.index (map fst (DataFrame y)) (n_train a) with
                       | Ok split_date =>
                           [Shade_forecast split_date pred_end; Show;
                            Print_summary]
                       | Raise _ => []
                       end
                | Raise _ => []
                end
        else [Set_ylim (ylim a) (i_order a); Legend]).
Proof.
  unfold plot_and_fit.
  destruct (fitting_gate a); [ | reflexivity].
  destruct (forecast a (DataFrame y)) as [t [pred_end | e]];
    [destruct (Py.index (map fst (DataFrame y)) (n_train a)) | ];
    cbn [trace result bind emit ret lift fst snd app];
    rewrite ?app_nil_r; reflexivity.
Qed.

Lemma driver_trace (a : arima_args) :
  trace (driver a)
  = Print_generated (ar_order a) (i_order a) (ma_order a)
    :: Print_coeff (arparams_of a) (maparams_of a)
    :: trace (series_run a)
       ++ match result (series_run a) with
          | Ok y => trace (plots a y)
          | Raise _ => []
          end.
Proof.
  unfold arima_data.
  now rewrite !trace_emit_then, trace_bind.
Qed.

Lemma driver_result (a : arima_args) :
  result (driver a)
  = match result (series_run a) with
    | Ok y => result (plots a y)
    | Raise e => Raise e
    end.
Proof.
  unfold arima_data.
  now rewrite !result_emit_then, result_bind.
Qed.

Lemma series_run_trace (a : arima_args) :
  trace (series_run a)
  = (if verbose a
     then [Call_ArmaProcess (ar_poly (arparams_of a))
             (ma_poly (maparams_of a)) (n_samp a);
           Print_stationary
             (isstationary (ar_poly (arparams_of a))
                (ma_poly (maparams_of a)) (n_samp a));
           Print_invertible
             (isinvertible (ar_poly (arparams_of a))
                (ma_poly (maparams_of a)) (n_samp a))]
     else [])
    ++ [Call_arma_generate_sample (ar_poly (arparams_of a))
          (ma_poly (maparams_of a)) (n_samp a) one 10].
Proof. apply generate_trace. Qed.

Lemma series_run_result (a : arima_args) :
  result (series_run a)
  = outcome_map (integrate (i_order a))
      (add_trend (lin_trend a) (n_samp a)
         (arma_generate_sample (ar_poly (arparams_of a))
            (ma_poly (maparams_of a)) (n_samp a) one
            (RandomState (rand_state a)) 10)).
Proof. apply generate_result. Qed.

(** *** Reading the trace of a run *)

(** Unfolds the trace of a run down to the outcomes it depends on. *)
Ltac read_trace a :=
  rewrite driver_trace, series_run_trace;
  destruct (result (series_run a)) as [?y | ?e];
  [rewrite plot_and_fit_trace;
   destruct (fitting_gate a);
   [rewrite fit_and_forecast_trace, fit_and_forecast_result;
    repeat match goal with
           | |- context [Py.index ?l ?k] => destruct (Py.index l k)
           end | ] | ];
  destruct (verbose a); reflexivity.

Lemma models_fit_driver (a : arima_args) :
  models_fit (trace (driver a))
  = match result (series_run a) with
    | Ok y => if fitting_gate a then [build_model a (DataFrame y)] else []
    | Raise _ => []
    end.
Proof. read_trace a. Qed.

Lemma models_built_driver (a : arima_args) :
  models_built (trace (driver a))
  = match result (series_run a) with
    | Ok y => if fitting_gate a then [build_model a (DataFrame y)] else []
    | Raise _ => []
    end.
Proof. read_trace a. Qed.

Lemma prediction_requests_driver (a : arima_args) :
  prediction_requests (trace (driver a))
  = match result (series_run a) with
    | Ok y =>
        if fitting_gate a
        then match Py.index (map fst (DataFrame y))
                     (loglikelihood_burn (fit (build_model a (DataFrame y)))),
                   Py.index (map fst (DataFrame y)) (n_train a) with
             | Ok pred_begin, Ok split_date =>
                 [(strftime pred_begin,
                   strftime (add_months split_date (n_forecast a - 1)),
                   dynamic a)]
             | _, _ => []
             end
        else []
    | Raise _ => []
    end.
Proof. read_trace a. Qed.

Lemma conf_int_levels_driver (a : arima_args) :
  conf_int_levels (trace (driver a))
  = match result (series_run a) with
    | Ok y =>
        if fitting_gate a
        then match Py.index (map fst (DataFrame y))
                     (loglikelihood_burn (fit (build_model a (DataFrame y)))),
                   Py.index (map fst (DataFrame y)) (n_train a) with
             | Ok _, Ok _ => [0.05%float]
             | _, _ => []
             end
        else []
    | Raise _ => []
    end.
Proof. read_trace a. Qed.

(** *** The gate *)

Lemma fitting_gate_spec (a : arima_args) :
  fitting_gate a = true <->
  ((0 < ar_order a /\ eqb (ar_lag1 a) zero = false)
   \/ (0 < ma_order a /\ eqb (ma_lag1 a) zero = false))
  /\ (0 < p a \/ 0 < q a).
Proof.
  unfold fitting_gate, nonzero.
  rewrite andb_true_iff, !orb_true_iff, !andb_true_iff, !negb_true_iff,
    !Z.ltb_lt.
  reflexivity.
Qed.

(** A coefficient the gate looks at is one the generator was given. *)
Lemma gate_sees_used_coefficient (a : arima_args) :
  fitting_gate a = true ->
  some_nonzero_coefficient (arparams_of a) (maparams_of a) = true.
Proof.
  intros Hg. apply fitting_gate_spec in Hg.
  destruct Hg as [[[Hk Hnz] | [Hk Hnz]] _];
    unfold some_nonzero_coefficient; rewrite existsb_app;
    apply orb_true_iff.
  - left. unfold arparams_of, ar_lags.
    destruct (take_pos_head (ar_lag1 a)
                [ar_lag2 a; ar_lag3 a; ar_lag4 a] Hk) as [rest ->].
    simpl. unfold nonzero at 1. now rewrite Hnz.
  - right. unfold maparams_of, ma_lags.
    destruct (take_pos_head (ma_lag1 a)
                [ma_lag2 a; ma_lag3 a; ma_lag4 a] Hk) as [rest ->].
    simpl. unfold nonzero at 1. now rewrite Hnz.
Qed.

(** C1, amended.  A model is fit exactly when the generated series exists
    and the gate holds, and the gate is: the AR order is positive and the
    lag-1 AR coefficient is nonzero, or the MA order is positive and the
    lag-1 MA coefficient is nonzero; and [p] or [q] is positive.  When the
    gate fails the run renders the raw series only.  When it holds, a
    nonzero coefficient was used for generation. *)
Theorem gate_decides_fitting (a : arima_args) :
  (fitting_gate a = true <->
   ((0 < ar_order a /\ eqb (ar_lag1 a) zero = false)
    \/ (0 < ma_order a /\ eqb (ma_lag1 a) zero = false))
   /\ (0 < p a \/ 0 < q a))
  /\ models_fit (trace (driver a))
     = match result (series_run a) with
       | Ok y => if fitting_gate a then [build_model a (DataFrame y)] else []
       | Raise _ => []
       end
  /\ (fitting_gate a = false ->
      trace (driver a)
      = Print_generated (ar_order a) (i_order a) (ma_order a)
        :: Print_coeff (arparams_of a) (maparams_of a)
        :: trace (series_run a)
           ++ match result (series_run a) with
              | Ok y =>
                  [Plot_in_sample (Py.take (n_train a) (DataFrame y));
                   Plot_held_out (Py.drop (n_train a - 1) (DataFrame y));
                   Set_ylim (ylim a) (i_order a);
                   Legend]
              | Raise _ => []
              end)
  /\ (fitting_gate a = true ->
      some_nonzero_coefficient (arparams_of a) (maparams_of a) = true).
Proof.
  split; [apply fitting_gate_spec | ].
  split; [apply models_fit_driver | ].
  split; [ | apply gate_sees_used_coefficient].
  intros Hg. rewrite driver_trace.
  destruct (result (series_run a)) as [y | e]; [ | reflexivity].
  now rewrite plot_and_fit_trace, Hg.
Qed.

(** *** The model *)

(** C5.  Whatever the linear trend (none, zero, positive or negative), the
    trend given to SARIMAX is ['n']: both branches of the test on
    [lin_trend] assign it, so every model the driver builds has it. *)
Theorem trend_is_always_n (lin_trend : option R) (a : arima_args) :
  model_trend lin_trend = "n"%string
  /\ (forall df, trend (build_model a df) = "n"%string)
  /\ Forall (fun m => trend m = "n"%string) (models_built (trace (driver a))).
Proof.
  assert (Ht : forall lt : option R, model_trend lt = "n"%string).
  { intros lt. unfold model_trend.
    destruct lt as [t | ]; [destruct (ltb zero t) | ]; reflexivity. }
  split; [apply Ht | ].
  split; [intros df; apply Ht | ].
  rewrite models_built_driver.
  destruct (result (series_run a)) as [y | e]; [ | constructor].
  destruct (fitting_gate a); repeat constructor.
  apply Ht.
Qed.

(** *** The prediction request *)


(** *** The coefficient vectors *)

Lemma arparams_in_range (a : @arima_args R) :
  0 <= ar_order a <= 4 ->
  arparams_of a = firstn (Z.to_nat (ar_order a)) (ar_lags a).
Proof. intros Hk. apply take_in_range. simpl. lia. Qed.

Lemma maparams_in_range (a : @arima_args R) :
  0 <= ma_order a <= 4 ->
  maparams_of a = firstn (Z.to_nat (ma_order a)) (ma_lags a).
Proof. intros Hk. apply take_in_range. simpl. lia. Qed.

Lemma fitting_gate_agree (a a' : @arima_args R) :
  agree_up_to_orders a a' -> agree_elsewhere a a' ->
  fitting_gate a' = fitting_gate a.
Proof.
  intros (_ & Har & Hma & _ & _ & _ & _ & Hars & Hmas)
         (_ & Hp & _ & Hq & _).
  unfold fitting_gate. rewrite Har, Hma, Hp, Hq.
  f_equal. f_equal.
  - destruct (Z.ltb_spec 0 (ar_order a)) as [Hpos | ]; [ | reflexivity].
    specialize (Hars 0%nat ltac:(lia)). simpl in Hars.
    now injection Hars as ->.
  - destruct (Z.ltb_spec 0 (ma_order a)) as [Hpos | ]; [ | reflexivity].
    specialize (Hmas 0%nat ltac:(lia)). simpl in Hmas.
    now injection Hmas as ->.
Qed.


End Driver.

(** ** Across runs *)



(** Without a state the generator does depend on the unseeded one. *)
Lemma unseeded_generation_is_not :
  result (generate_arima_data [1%float] Reference.arma_generate_sample
            Reference.always Reference.always [] [] 0 1 None 1%float 0 None
            false)
  = Ok [1%float]
  /\ result (generate_arima_data [2%float] Reference.arma_generate_sample
               Reference.always Reference.always [] [] 0 1 None 1%float 0
               None false)
     = Ok [2%float].
Proof. split; vm_compute; reflexivity. Qed.


(** ** Concrete runs *)

(** The polynomials of the coefficients (0.5, -0.25) and (0.3), and the call
    of the simulation routine with them. *)
Lemma lag_polynomials_assembled_witness :
  ar_poly [0.5; -0.25]%float = [1; -0.5; 0.25]%float
  /\ ma_poly [0.3]%float = [1; 0.3]%float
  /\ In (Call_arma_generate_sample [1; -0.5; 0.25]%float [1; 0.3]%float 3
           1%float 0)
        (trace (Reference.generate Reference.float_draws [0.5; -0.25]%float
                  [0.3]%float 0 3 None 1%float 0 None false)).
Proof.
  pose proof (lag_polynomials_assembled (R := float) (N := float_Num)
                (Reference.RandomState Reference.float_draws 0)
                Reference.arma_generate_sample Reference.always
                Reference.always [0.5; -0.25]%float [0.3]%float 0 3 None
                1%float 0 None false) as W.
  exact (conj (proj1 W)
           (conj (proj1 (proj2 W)) (proj1 (proj2 (proj2 (proj2 W)))))).
Defined.

(** A call that passes the gate used a nonzero coefficient. *)
Lemma gate_decides_fitting_witness :
  fitting_gate Reference.ar1_call = true
  /\ some_nonzero_coefficient (arparams_of Reference.ar1_call)
       (maparams_of Reference.ar1_call) = true.
Proof.
  split; [reflexivity | ].
  apply (proj2 (proj2 (proj2
           (gate_decides_fitting (R := float) (N := float_Num)
              (Reference.RandomState Reference.float_draws)
              (Reference.RandomState Reference.float_draws 0)
              Reference.arma_generate_sample Reference.always
              Reference.always Reference.fit Reference.loglikelihood_burn
              Reference.get_prediction Reference.predicted_mean
              Reference.conf_int Reference.ar1_call)))).
  reflexivity.
Defined.

(** C1 as stated fails: the call of order 2 with coefficients (0, 0.5)
    generates from a nonzero coefficient and asks for [p = 1], yet the gate,
    which looks at lag 1 only, is closed and no model is fit. *)
Lemma lag2_alone_does_not_open_the_gate :
  arparams_of Reference.lag2_call = [0; 0.5]%float
  /\ some_nonzero_coefficient (arparams_of Reference.lag2_call)
       (maparams_of Reference.lag2_call) = true
  /\ (0 <? p Reference.lag2_call) = true
  /\ fitting_gate Reference.lag2_call = false
  /\ is_ok (result (Reference.run Reference.float_draws Reference.lag2_call))
     = true
  /\ models_fit
       (trace (Reference.run Reference.float_draws Reference.lag2_call))
     = [].
Proof. repeat split; vm_compute; reflexivity. Qed.




(** ** Further properties *)

Section Lengths.

Context {R : Type} {N : Num R}.

Variable rng : Type.
Variable RandomState : Z -> rng.
Variable RandomState_unseeded : rng.
Variable arma_generate_sample : list R -> list R -> Z -> R -> rng -> Z -> list R.
Variable isstationary : list R -> list R -> Z -> bool.
Variable isinvertible : list R -> list R -> Z -> bool.

Lemma iter_cumsum_length (n : nat) (y : list R) :
  length (Nat.iter n cumsum y) = length y.
Proof.
  induction n as [| n IH]; simpl; [reflexivity | ].
  now rewrite cumsum_length.
Qed.

(** X1.  When the simulation routine returns [n_samp] samples, so does the
    generator, whatever the trend and the integration order. *)
Theorem generated_length arparams maparams i_order n_samp rng_state sigma
    burnin lin_trend verbose :
  0 <= n_samp ->
  length (arma_generate_sample (ar_poly arparams) (ma_poly maparams) n_samp
            sigma (state_or_fresh RandomState_unseeded rng_state) burnin)
  = Z.to_nat n_samp ->
  exists y,
    result (generate_arima_data RandomState_unseeded arma_generate_sample
              isstationary isinvertible arparams maparams i_order n_samp
              rng_state sigma burnin lin_trend verbose) = Ok y
    /\ length y = Z.to_nat n_samp.
Proof.
  intros Hn Hlen. rewrite generate_result.
  set (sample := arma_generate_sample _ _ _ _ _ _) in *.
  assert (Ht : exists y0, add_trend lin_trend n_samp sample = Ok y0
                          /\ length y0 = Z.to_nat n_samp).
  { destruct lin_trend as [t | ]; simpl; [ | eauto].
    unfold np_repeat. destruct (Z.ltb_spec n_samp 0); [lia | ].
    unfold np_add.
    rewrite cumsum_length, repeat_length, Hlen, Nat.eqb_refl.
    eexists. split; [reflexivity | ].
    rewrite zip_add_length; [exact Hlen | ].
    now rewrite cumsum_length, repeat_length. }
  destruct Ht as (y0 & -> & Hy0).
  eexists. split; [reflexivity | ].
  now rewrite integrate_iter, iter_cumsum_length.
Qed.

(** X2.  The two plots of the raw series share one point: the training
    prefix has [n_train] points and the held-out plot starts at its last
    one. *)
Theorem split_overlaps_by_one (n_train : Z) (y : list R) :
  1 <= n_train <= Z.of_nat (length y) ->
  length (Py.take n_train (DataFrame y)) = Z.to_nat n_train
  /\ length (Py.drop (n_train - 1) (DataFrame y))
     = (length y - Z.to_nat n_train + 1)%nat
  /\ nth_error (Py.drop (n_train - 1) (DataFrame y)) 0
     = nth_error (Py.take n_train (DataFrame y)) (Z.to_nat n_train - 1).
Proof.
  intros Hk.
  assert (Hlen : length (DataFrame y) = length y).
  { unfold DataFrame. rewrite length_combine, date_range_length. lia. }
  unfold Py.take, Py.drop. rewrite Hlen.
  rewrite !slice_bound_in_range by lia.
  split; [ | split].
  - rewrite length_firstn. lia.
  - rewrite length_skipn. lia.
  - rewrite nth_error_skipn, nth_error_firstn, Nat.add_0_r.
    replace (Z.to_nat (n_train - 1)) with (Z.to_nat n_train - 1)%nat by lia.
    destruct (Nat.ltb_spec (Z.to_nat n_train - 1) (Z.to_nat n_train));
      [reflexivity | lia].
Qed.

End Lengths.

(** Twelve samples from the stand-in simulation, integrated twice. *)
Lemma generated_length_witness :
  exists y,
    result (Reference.generate Reference.float_draws [0.5%float] [] 2 12
              None 1%float 10 (Some 0.1%float) true) = Ok y
    /\ length y = 12%nat.
Proof.
  pose proof (generated_length (R := float) (N := float_Num)
                (Reference.RandomState Reference.float_draws 0)
                Reference.arma_generate_sample Reference.always
                Reference.always [0.5%float] [] 2 (n_samp := 12) None
                1%float 10 (Some 0.1%float) true) as W.
  apply W; [lia | vm_compute; reflexivity].
Defined.

(** Eight training points out of twelve. *)
Lemma split_overlaps_by_one_witness :
  length (Py.take 8 (DataFrame Reference.ar1_series)) = 8%nat
  /\ length (Py.drop (8 - 1) (DataFrame Reference.ar1_series))
     = (length Reference.ar1_series - 8 + 1)%nat
  /\ nth_error (Py.drop (8 - 1) (DataFrame Reference.ar1_series)) 0
     = nth_error (Py.take 8 (DataFrame Reference.ar1_series)) (8 - 1).
Proof.
  apply (split_overlaps_by_one (n_train := 8) Reference.ar1_series).
  vm_compute. split; discriminate.
Defined.

(** X3.  The call the widget makes when it is displayed, all arguments at
    their defaults, fits nothing and asks for no prediction, whatever the
    libraries return. *)
Theorem initial_call_fits_nothing
    (rng : Type) (RandomState : Z -> rng) (RandomState_unseeded : rng)
    (arma_generate_sample
       : list float -> list float -> Z -> float -> rng -> Z -> list float)
    (isstationary isinvertible : list float -> list float -> Z -> bool)
    (results : Type) (fit : sarimax_model float -> results)
    (loglikelihood_burn : results -> Z)
    (prediction : Type)
    (get_prediction : results -> string -> string -> bool -> prediction)
    (predicted_mean : prediction -> series float)
    (conf_int : prediction -> float -> list (Timestamp * (float * float))) :
  let run := arima_data RandomState RandomState_unseeded arma_generate_sample
               isstationary isinvertible fit loglikelihood_burn
               get_prediction predicted_mean conf_int default_args in
  fitting_gate (default_args (R := float)) = false
  /\ models_fit (trace run) = []
  /\ prediction_requests (trace run) = [].
Proof.
  intros run. subst run.
  assert (Hg : fitting_gate (default_args (R := float)) = false)
    by reflexivity.
  rewrite models_fit_driver, prediction_requests_driver, Hg.
  destruct (result _); repeat split.
Qed.

(** ** Python and pandas on small inputs *)

Example take_counts_from_the_end : Py.take (-1) [1; 2; 3; 4] = [1; 2; 3].
Proof. reflexivity. Qed.

Example take_clips : Py.take 7 [1; 2] = [1; 2].
Proof. reflexivity. Qed.

Example drop_counts_from_the_end : Py.drop (-1) [1; 2; 3] = [3].
Proof. reflexivity. Qed.

Example index_counts_from_the_end : Py.index [1; 2; 3] (-1) = Ok 3.
Proof. reflexivity. Qed.

Example index_past_the_end : Py.index [1; 2; 3] 3 = Raise IndexError.
Proof. reflexivity. Qed.

Example cumsum_in_binary64 :
  cumsum [0.1; 0.2; 0.3]%float
  = [0.1; 0.30000000000000004; 0.6000000000000001]%float.
Proof. vm_compute. reflexivity. Qed.

(** With the widget's [n_train = 108] and [n_forecast = 24] the forecast
    ends in December 2000. *)
Example forecast_ends_december_2000 :
  strftime (add_months origin (108 + 24 - 1)) = "2000-12-01"%string.
Proof. reflexivity. Qed.

(** * The rest of the driver: bounds, residuals, composition *)

(** ** Indices of the timeline *)

(** [k] is an index Python accepts for a sequence of length [len]: within
    [-len .. len - 1]. *)
Definition index_in_bounds (len k : Z) : bool := (- len <=? k) && (k <? len).

(** The position an accepted index stands for: a negative one counts from
    the end. *)
Definition wrapped (len k : Z) : Z := if k <? 0 then k + len else k.

(** The regions the run shaded as forecast. *)
Definition shaded_regions {R : Type} (t : list (event R))
  : list (Timestamp * Timestamp) :=
  flat_map (fun e => match e with
                     | Shade_forecast a b => [(a, b)]
                     | _ => []
                     end) t.

Section Bounds.

Context {A : Type}.

Lemma index_wrapped (l : list A) (k : Z) :
  index_in_bounds (Z.of_nat (length l)) k = true ->
  exists x,
    Py.index l k = Ok x
    /\ nth_error l (Z.to_nat (wrapped (Z.of_nat (length l)) k)) = Some x.
Proof.
  unfold index_in_bounds, wrapped, Py.index. intros Hk.
  apply andb_true_iff in Hk. destruct Hk as [Hlo Hhi].
  apply Z.leb_le in Hlo. apply Z.ltb_lt in Hhi.
  set (k' := if k <? 0 then k + Z.of_nat (length l) else k).
  assert (Hk' : 0 <= k' < Z.of_nat (length l))
    by (subst k'; destruct (Z.ltb_spec k 0); lia).
  destruct (Z.ltb_spec k' 0); [lia | ].
  destruct (Z.leb_spec (Z.of_nat (length l)) k'); [lia | ].
  simpl.
  destruct (nth_error l (Z.to_nat k')) as [x | ] eqn:Hx; [eauto | ].
  apply nth_error_None in Hx. lia.
Qed.

Lemma index_out_of_bounds (l : list A) (k : Z) :
  index_in_bounds (Z.of_nat (length l)) k = false ->
  Py.index l k = Raise IndexError.
Proof.
  unfold index_in_bounds, Py.index. intros Hk.
  apply andb_false_iff in Hk.
  set (k' := if k <? 0 then k + Z.of_nat (length l) else k).
  assert (Hk' : k' < 0 \/ Z.of_nat (length l) <= k').
  { subst k'. destruct Hk as [Hk | Hk];
      [apply Z.leb_gt in Hk | apply Z.ltb_ge in Hk];
      destruct (Z.ltb_spec k 0); lia. }
  destruct (Z.ltb_spec k' 0); [reflexivity | ].
  destruct (Z.leb_spec (Z.of_nat (length l)) k'); [reflexivity | lia].
Qed.

End Bounds.

Section TimelineBounds.

Context {R : Type}.

(** [df.index[k]] for an accepted index, negative or not. *)
Lemma DataFrame_index_wrapped (y : list R) (k : Z) :
  index_in_bounds (Z.of_nat (length y)) k = true ->
  Py.index (map fst (DataFrame y)) k
  = Ok (add_months origin (wrapped (Z.of_nat (length y)) k)).
Proof.
  intros Hk.
  assert (Hlen : length (map fst (DataFrame y)) = length y)
    by (rewrite DataFrame_index; apply date_range_length).
  destruct (index_wrapped (map fst (DataFrame y)) k) as (x & -> & Hx);
    [now rewrite Hlen | ].
  rewrite Hlen, DataFrame_index in Hx.
  assert (Hw : 0 <= wrapped (Z.of_nat (length y)) k < Z.of_nat (length y)).
  { unfold index_in_bounds, wrapped in *.
    apply andb_true_iff in Hk. destruct Hk as [Hlo Hhi].
    apply Z.leb_le in Hlo. apply Z.ltb_lt in Hhi.
    destruct (Z.ltb_spec k 0); lia. }
  rewrite date_range_nth in Hx by lia.
  rewrite Z2Nat.id in Hx by lia. congruence.
Qed.

Lemma DataFrame_index_out (y : list R) (k : Z) :
  index_in_bounds (Z.of_nat (length y)) k = false ->
  Py.index (map fst (DataFrame y)) k = Raise IndexError.
Proof.
  intros Hk. apply index_out_of_bounds.
  now rewrite DataFrame_index, date_range_length.
Qed.

End TimelineBounds.

(** ** How a run ends *)

Section Outcome.

Context {R : Type} {N : Num R}.

Variable rng : Type.
Variable RandomState : Z -> rng.
Variable RandomState_unseeded : rng.
Variable arma_generate_sample : list R -> list R -> Z -> R -> rng -> Z -> list R.
Variable isstationary : list R -> list R -> Z -> bool.
Variable isinvertible : list R -> list R -> Z -> bool.
Variable results : Type.
Variable fit : sarimax_model R -> results.
Variable loglikelihood_burn : results -> Z.
Variable prediction : Type.
Variable get_prediction : results -> string -> string -> bool -> prediction.
Variable predicted_mean : prediction -> series R.
Variable conf_int : prediction -> float -> list (Timestamp * (R * R)).

Local Abbreviation series_run :=
  (generated_series RandomState RandomState_unseeded arma_generate_sample
     isstationary isinvertible).
Local Abbreviation forecast :=
  (fit_and_forecast fit loglikelihood_burn get_prediction predicted_mean
     conf_int).
Local Abbreviation plots :=
  (plot_and_fit fit loglikelihood_burn get_prediction predicted_mean conf_int).
Local Abbreviation driver :=
  (arima_data RandomState RandomState_unseeded arma_generate_sample
     isstationary isinvertible fit loglikelihood_burn get_prediction
     predicted_mean conf_int).

Lemma plot_and_fit_result (a : arima_args) (y : list R) :
  result (plots a y)
  = if fitting_gate a
    then match result (forecast a (DataFrame y)) with
         | Ok _ =>
             match Py.index (map fst (DataFrame y)) (n_train a) with
             | Ok _ => Ok tt
             | Raise e => Raise e
             end
         | Raise e => Raise e
         end
    else Ok tt.
Proof.
  unfold plot_and_fit.
  destruct (fitting_gate a); [ | reflexivity].
  destruct (forecast a (DataFrame y)) as [t [pred_end | e]];
    [destruct (Py.index (map fst (DataFrame y)) (n_train a)) | ];
    reflexivity.
Qed.

(** Unfolds a run whose series is [y] and whose gate is known down to the
    two lookups in the index. *)
Ltac unfold_run Hy Hg :=
  rewrite ?driver_result, ?driver_trace, ?series_run_trace, ?Hy,
    ?plot_and_fit_result, ?plot_and_fit_trace, ?Hg,
    ?fit_and_forecast_result, ?fit_and_forecast_trace.

Lemma driver_result_cases (a : arima_args) (y : list R) :
  result (series_run a) = Ok y ->
  result (driver a)
  = (if fitting_gate a
        && negb (index_in_bounds (Z.of_nat (length y))
                   (loglikelihood_burn (fit (build_model a (DataFrame y))))
                 && index_in_bounds (Z.of_nat (length y)) (n_train a))
     then Raise IndexError
     else Ok tt).
Proof.
  intros Hy.
  set (len := Z.of_nat (length y)).
  set (burn := loglikelihood_burn (fit (build_model a (DataFrame y)))).
  destruct (fitting_gate a) eqn:Hg; unfold_run Hy Hg; [ | reflexivity].
  fold burn. simpl.
  destruct (index_in_bounds len burn) eqn:Hb.
  - rewrite (DataFrame_index_wrapped y burn Hb).
    destruct (index_in_bounds len (n_train a)) eqn:Ht; simpl.
    + now rewrite (DataFrame_index_wrapped y (n_train a) Ht).
    + now rewrite (DataFrame_index_out y (n_train a) Ht).
  - now rewrite (DataFrame_index_out y burn Hb).
Qed.

Lemma driver_window_wrapped (a : arima_args) (y : list R) :
  let len := Z.of_nat (length y) in
  let burn := loglikelihood_burn (fit (build_model a (DataFrame y))) in
  let split_at := wrapped len (n_train a) in
  result (series_run a) = Ok y ->
  fitting_gate a = true ->
  index_in_bounds len burn = true ->
  index_in_bounds len (n_train a) = true ->
  prediction_requests (trace (driver a))
  = [(strftime (add_months origin (wrapped len burn)),
      strftime (add_months origin (split_at + n_forecast a - 1)),
      dynamic a)]
  /\ shaded_regions (trace (driver a))
     = [(add_months origin split_at,
         add_months origin (split_at + n_forecast a - 1))].
Proof.
  intros len burn split_at Hy Hg Hb Ht.
  rewrite prediction_requests_driver.
  unfold_run Hy Hg. fold burn.
  rewrite (DataFrame_index_wrapped y burn Hb).
  rewrite (DataFrame_index_wrapped y (n_train a) Ht).
  fold len. fold split_at.
  rewrite add_months_origin.
  replace (split_at + (n_forecast a - 1))
    with (split_at + n_forecast a - 1) by lia.
  destruct (verbose a); split; reflexivity.
Qed.



End Outcome.

(** An AR(1) call on twelve samples asking for an ARIMA(1, d, 0), with the
    split and the horizon left open. *)
Definition split_call (n_train n_forecast d : Z) : arima_args :=
  {| n_samp := 12;
     ar_order := 1;
     ar_lag1 := 0.5%float;
     ar_lag2 := 0%float;
     ar_lag3 := 0%float;
     ar_lag4 := 0%float;
     i_order := 0;
     ma_order := 0;
     ma_lag1 := 0%float;
     ma_lag2 := 0%float;
     ma_lag3 := 0%float;
     ma_lag4 := 0%float;
     rand_state := 42;
     ylim := 5;
     p := 1;
     d := d;
     q := 0;
     n_train := n_train;
     n_forecast := n_forecast;
     dynamic := false;
     lin_trend := None;
     verbose := true |}.



(** ** Integration composed *)

(** The sum of the first [i + 1] entries of an integer array. *)
Definition prefix_sum (y : list Z) (i : nat) : Z :=
  fold_right Z.add 0 (firstn (S i) y).

Lemma run_eq {R A : Type} (m m' : M R A) :
  trace m = trace m' -> result m = result m' -> m = m'.
Proof.
  destruct m, m'. simpl. now intros -> ->.
Qed.

Section Composition.

Context {R : Type} {N : Num R}.

Variable rng : Type.
Variable RandomState_unseeded : rng.
Variable arma_generate_sample : list R -> list R -> Z -> R -> rng -> Z -> list R.
Variable isstationary : list R -> list R -> Z -> bool.
Variable isinvertible : list R -> list R -> Z -> bool.

Local Abbreviation generate :=
  (generate_arima_data RandomState_unseeded arma_generate_sample
     isstationary isinvertible).

Lemma integrate_add (d1 d2 : Z) (y : list R) :
  0 <= d1 -> 0 <= d2 ->
  integrate (d1 + d2) y = integrate d2 (integrate d1 y).
Proof.
  intros H1 H2. rewrite !integrate_iter.
  rewrite Z2Nat.inj_add by assumption.
  rewrite Nat.add_comm. apply Nat.iter_add.
Qed.

Lemma integrate_nonpositive (i_order : Z) (y : list R) :
  i_order <= 0 -> integrate i_order y = y.
Proof.
  intros Hd. rewrite integrate_iter.
  now replace (Z.to_nat i_order) with 0%nat by lia.
Qed.

(** X6.  Integration orders add up: the output for order [d1 + d2] is the
    output for order [d1] summed cumulatively [d2] more times.  An order
    that is zero or negative integrates nothing: the loop over
    [range(i_order)] is empty, and the run is that of order 0. *)
Theorem integration_composes arparams maparams (d1 d2 : Z) n_samp rng_state
    sigma burnin lin_trend verbose :
  (0 <= d1 -> 0 <= d2 ->
   result (generate arparams maparams (d1 + d2) n_samp rng_state sigma
             burnin lin_trend verbose)
   = outcome_map (integrate d2)
       (result (generate arparams maparams d1 n_samp rng_state sigma burnin
                  lin_trend verbose)))
  /\ (d1 <= 0 ->
      generate arparams maparams d1 n_samp rng_state sigma burnin lin_trend
        verbose
      = generate arparams maparams 0 n_samp rng_state sigma burnin lin_trend
          verbose).
Proof.
  split.
  - intros H1 H2. rewrite !generate_result.
    destruct (add_trend lin_trend n_samp _) as [y | e]; [ | reflexivity].
    simpl. now rewrite integrate_add.
  - intros Hd. apply run_eq.
    + now rewrite !generate_trace.
    + rewrite !generate_result.
      destruct (add_trend lin_trend n_samp _) as [y | e]; [ | reflexivity].
      simpl. now rewrite integrate_nonpositive.
Qed.

End Composition.

(** Order 3 is order 1 integrated twice more; order -2 is order 0. *)
Lemma integration_composes_witness :
  result (Reference.generate Reference.float_draws [0.5%float] [] (1 + 2) 5
            None 1%float 2 None false)
  = outcome_map (integrate 2)
      (result (Reference.generate Reference.float_draws [0.5%float] [] 1 5
                 None 1%float 2 None false))
  /\ Reference.generate Reference.float_draws [0.5%float] [] (-2) 5 None
       1%float 2 None false
     = Reference.generate Reference.float_draws [0.5%float] [] 0 5 None
         1%float 2 None false.
Proof.
  pose proof (integration_composes (R := float) (N := float_Num)
                (Reference.RandomState Reference.float_draws 0)
                Reference.arma_generate_sample Reference.always
                Reference.always [0.5%float] [] 1 2 5 None 1%float 2 None
                false) as W1.
  pose proof (integration_composes (R := float) (N := float_Num)
                (Reference.RandomState Reference.float_draws 0)
                Reference.arma_generate_sample Reference.always
                Reference.always [0.5%float] [] (-2) 0 5 None 1%float 2 None
                false) as W2.
  split; [apply (proj1 W1); lia | apply (proj2 W2); lia].
Defined.

(** ** A trend under integration, in exact integers *)

Section Quadratic.

Variable rng : Type.
Variable RandomState_unseeded : rng.
Variable arma_generate_sample : list Z -> list Z -> Z -> Z -> rng -> Z -> list Z.
Variable isstationary : list Z -> list Z -> Z -> bool.
Variable isinvertible : list Z -> list Z -> Z -> bool.

Local Abbreviation generate :=
  (generate_arima_data RandomState_unseeded arma_generate_sample
     isstationary isinvertible).

Lemma prefix_sum_S (l : list Z) :
  forall (i : nat) (x : Z),
  nth_error l (S i) = Some x -> prefix_sum l (S i) = prefix_sum l i + x.
Proof.
  unfold prefix_sum.
  induction l as [| a l IH]; intros i x Hx; [discriminate | ].
  destruct l as [| b l]; [destruct i; discriminate | ].
  destruct i as [| i].
  - simpl in Hx. injection Hx as ->. simpl. lia.
  - specialize (IH i x Hx).
    change (fold_right Z.add 0 (firstn (S (S (S i))) (a :: b :: l)))
      with (a + fold_right Z.add 0 (firstn (S (S i)) (b :: l))).
    change (fold_right Z.add 0 (firstn (S (S i)) (a :: b :: l)))
      with (a + fold_right Z.add 0 (firstn (S i) (b :: l))).
    lia.
Qed.

Lemma cumsum_from_nth_Z (y : list Z) :
  forall (acc : Z) (i : nat),
  (i < length y)%nat ->
  nth_error (cumsum_from acc y) i = Some (acc + prefix_sum y i).
Proof.
  unfold prefix_sum.
  induction y as [| x y IH]; intros acc i Hi; [simpl in Hi; lia | ].
  destruct i as [| i].
  - simpl. f_equal. destruct y; simpl; lia.
  - simpl in Hi. cbn [cumsum_from nth_error].
    rewrite IH by lia.
    change (firstn (S (S i)) (x :: y)) with (x :: firstn (S i) y).
    cbn [fold_right]. f_equal. simpl. lia.
Qed.

(** [np.cumsum(y)[i]] is the sum of [y[0..i]]. *)
Lemma cumsum_nth_Z (y : list Z) (i : nat) :
  (i < length y)%nat -> nth_error (cumsum y) i = Some (prefix_sum y i).
Proof.
  intros Hi. destruct y as [| x y]; [simpl in Hi; lia | ].
  destruct i as [| i].
  - unfold prefix_sum. simpl. f_equal. destruct y; simpl; lia.
  - simpl in Hi. cbn [cumsum nth_error].
    rewrite cumsum_from_nth_Z by lia.
    unfold prefix_sum.
    change (firstn (S (S i)) (x :: y)) with (x :: firstn (S i) y).
    reflexivity.
Qed.

Lemma prefix_sum_zip_add (a : list Z) :
  forall (b : list Z) (i : nat),
  length a = length b ->
  prefix_sum (zip_add a b) i = prefix_sum a i + prefix_sum b i.
Proof.
  unfold prefix_sum.
  induction a as [| x a IH]; intros [| y b] i Hlen; simpl in Hlen;
    try discriminate; [reflexivity | ].
  change (zip_add (x :: a) (y :: b)) with ((x + y) :: zip_add a b).
  cbn [firstn fold_right].
  destruct i as [| i].
  - simpl. lia.
  - specialize (IH b i ltac:(congruence)). lia.
Qed.

(** The sum of the ramp [t, 2 t, ..., (i + 1) t] is [t] times a triangular
    number. *)
Lemma prefix_sum_ramp (t : Z) (n i : nat) :
  (i < n)%nat ->
  2 * prefix_sum (cumsum (repeat t n)) i
  = t * (Z.of_nat i + 1) * (Z.of_nat i + 2).
Proof.
  induction i as [| i IH]; intros Hi.
  - destruct n as [| n]; [lia | ].
    unfold prefix_sum. cbn [repeat cumsum firstn fold_right]. lia.
  - rewrite (@prefix_sum_S _ i (running_multiple t (S i)))
      by (now apply cumsum_repeat).
    rewrite running_multiple_Z. specialize (IH ltac:(lia)). lia.
Qed.

(** X7.  The trend is added before the integration.  In exact integers,
    with integration order 1 and slope [t], sample [i] of the output is the
    sum of the first [i + 1] simulated values plus
    [t (i + 1) (i + 2) / 2]: one integration turns the line into a
    parabola. *)
Theorem integrated_trend_is_quadratic arparams maparams n_samp rng_state
    sigma burnin (t : Z) verbose (i : nat) :
  let sample := arma_generate_sample (ar_poly arparams) (ma_poly maparams)
                  n_samp sigma
                  (state_or_fresh RandomState_unseeded rng_state) burnin in
  0 <= n_samp ->
  length sample = Z.to_nat n_samp ->
  (i < Z.to_nat n_samp)%nat ->
  exists y v,
    result (generate arparams maparams 1 n_samp rng_state sigma burnin
              (Some t) verbose) = Ok y
    /\ nth_error y i = Some v
    /\ 2 * v = 2 * prefix_sum sample i
               + t * (Z.of_nat i + 1) * (Z.of_nat i + 2).
Proof.
  intros sample Hn Hlen Hi.
  set (ramp := cumsum (repeat t (Z.to_nat n_samp))).
  assert (Hramp : length ramp = Z.to_nat n_samp)
    by (subst ramp; now rewrite cumsum_length, repeat_length).
  exists (cumsum (zip_add sample ramp)),
         (prefix_sum (zip_add sample ramp) i).
  split; [ | split].
  - rewrite generate_result. fold sample.
    unfold add_trend, np_repeat.
    destruct (Z.ltb_spec n_samp 0); [lia | ].
    unfold np_add. fold ramp.
    now rewrite Hramp, Hlen, Nat.eqb_refl.
  - apply cumsum_nth_Z.
    rewrite zip_add_length; lia.
  - rewrite prefix_sum_zip_add by lia.
    subst ramp. pose proof (prefix_sum_ramp t Hi). lia.
Qed.

End Quadratic.

(** Five integer samples, slope 10, integrated once: the last one is
    [655 + 10 * 5 * 6 / 2 = 805]. *)
Lemma integrated_trend_is_quadratic_witness :
  exists y v,
    result (Reference.generate Reference.Z_draws [2] [1] 1 5 None 1 2
              (Some 10) false) = Ok y
    /\ nth_error y 4 = Some v
    /\ 2 * v = 2 * prefix_sum [19; 43; 82; 168; 343] 4
               + 10 * (Z.of_nat 4 + 1) * (Z.of_nat 4 + 2).
Proof.
  pose proof (integrated_trend_is_quadratic
                (Reference.RandomState Reference.Z_draws 0)
                Reference.arma_generate_sample Reference.always
                Reference.always [2] [1] (n_samp := 5) None 1 2 10 false
                (i := 4)) as W.
  cbv zeta in W.
  destruct W as (y & v & Hy & Hv & Hq);
    [lia | vm_compute; reflexivity | simpl; lia | ].
  exists y, v. split; [exact Hy | ]. split; [exact Hv | exact Hq].
Defined.

(** ** The residuals *)

Section Residuals.

Context {R : Type} {N : Num R}.

Lemma residuals_length (pred_mean : series R) (df : series R) :
  (length (residuals df pred_mean) <= length df)%nat.
Proof.
  unfold residuals.
  induction df as [| e df IH]; simpl; [lia | ].
  rewrite length_app.
  destruct (lookup_date (fst e) pred_mean) as [m | ]; simpl; [ | lia].
  destruct (isnan (sub (snd e) m)); simpl; lia.
Qed.


End Residuals.


(** ** The split at [n_train = 0] *)

Section EmptyTraining.

Context {R : Type} {N : Num R}.

Variable rng : Type.
Variable RandomState : Z -> rng.
Variable RandomState_unseeded : rng.
Variable arma_generate_sample : list R -> list R -> Z -> R -> rng -> Z -> list R.
Variable isstationary : list R -> list R -> Z -> bool.
Variable isinvertible : list R -> list R -> Z -> bool.
Variable results : Type.
Variable fit : sarimax_model R -> results.
Variable loglikelihood_burn : results -> Z.
Variable prediction : Type.
Variable get_prediction : results -> string -> string -> bool -> prediction.
Variable predicted_mean : prediction -> series R.
Variable conf_int : prediction -> float -> list (Timestamp * (R * R)).

Local Abbreviation series_run :=
  (generated_series RandomState RandomState_unseeded arma_generate_sample
     isstationary isinvertible).
Local Abbreviation driver :=
  (arima_data RandomState RandomState_unseeded arma_generate_sample
     isstationary isinvertible fit loglikelihood_burn get_prediction
     predicted_mean conf_int).

Lemma combine_snoc {A B : Type} (l1 : list A) :
  forall (l2 : list B) (a : A) (b : B),
  length l1 = length l2 ->
  combine (l1 ++ [a]) (l2 ++ [b]) = combine l1 l2 ++ [(a, b)].
Proof.
  induction l1 as [| x l1 IH]; intros [| y l2] a b Hlen; simpl in *;
    try discriminate; [reflexivity | ].
  f_equal. apply IH. congruence.
Qed.

Lemma DataFrame_snoc (front : list R) (v : R) :
  DataFrame (front ++ [v])
  = DataFrame front ++ [(add_months origin (Z.of_nat (length front)), v)].
Proof.
  unfold DataFrame, date_range.
  rewrite length_app, Nat.add_1_r, seq_S, map_app. simpl.
  apply combine_snoc. now rewrite length_map, length_seq.
Qed.

Lemma drop_last {A : Type} (l : list A) (e : A) : Py.drop (-1) (l ++ [e]) = [e].
Proof.
  unfold Py.drop, Py.slice_bound.
  rewrite length_app, Nat.add_1_r.
  destruct (Z.ltb_spec (-1) 0); [ | lia].
  replace (Z.to_nat (Z.max 0 (Z.min (Z.of_nat (S (length l)))
                                (-1 + Z.of_nat (S (length l))))))
    with (length l) by lia.
  rewrite skipn_app, skipn_all, Nat.sub_diag. reflexivity.
Qed.

Lemma take_zero {A : Type} (l : list A) : Py.take 0 l = [].
Proof.
  unfold Py.take, Py.slice_bound.
  destruct (Z.ltb_spec 0 0); [lia | ].
  now replace (Z.to_nat (Z.max 0 (Z.min (Z.of_nat (length l)) 0)))
    with 0%nat by lia.
Qed.

(** X9.  With [n_train = 0] on a series that is not empty, the in-sample
    plot is empty and the held-out plot, whose slice starts at
    [n_train - 1 = -1], holds the last sample only, at its own month: not
    the whole series. *)
Theorem no_training_points (a : arima_args) (front : list R) (v : R) :
  result (series_run a) = Ok (front ++ [v]) ->
  n_train a = 0 ->
  In (Plot_in_sample []) (trace (driver a))
  /\ In (Plot_held_out
           [(add_months origin (Z.of_nat (length front)), v)])
        (trace (driver a)).
Proof.
  intros Hy Htrain.
  rewrite driver_trace, Hy, plot_and_fit_trace, Htrain.
  change (0 - 1) with (-1).
  rewrite DataFrame_snoc, drop_last, take_zero.
  split; right; right; apply in_or_app; right;
    [left | right; left]; reflexivity.
Qed.

End EmptyTraining.

(** Twelve samples and no training point: the held-out plot is the sample
    of December 1990. *)
Lemma no_training_points_witness :
  In (Plot_in_sample [])
     (trace (Reference.run Reference.float_draws (split_call 0 3 0)))
  /\ In (Plot_held_out
           [(add_months origin (Z.of_nat 11), 0.20703837871551514%float)])
        (trace (Reference.run Reference.float_draws (split_call 0 3 0))).
Proof.
  apply (no_training_points (R := float) (N := float_Num)
           (Reference.RandomState Reference.float_draws)
           (Reference.RandomState Reference.float_draws 0)
           Reference.arma_generate_sample Reference.always
           Reference.always Reference.fit Reference.loglikelihood_burn
           Reference.get_prediction Reference.predicted_mean
           Reference.conf_int (split_call 0 3 0)
           (firstn 11 Reference.ar1_series) 0.20703837871551514%float);
    vm_compute; reflexivity.
Defined.

(** * The widget *)

(** The cell that sets up the sliders and wires them to [arima_data]. *)
Module Widget.

(** [n_samp=120], [n_train=108] and [n_forecast=24], which the widget passes
    as [fixed(...)]. *)
Definition fixed_n_samp : Z := 120.
Definition fixed_n_train : Z := 108.
Definition fixed_n_forecast : Z := 24.

Definition rand_state_init : Z := 42.
Definition ylim_init : Z := 5.

(** The range of the order sliders. *)
Definition int_min : Z := 0.
Definition int_max : Z := 4.

(** The range of the coefficient sliders. *)
Definition lag_min : float := (-1)%float.
Definition lag_max : float := 1%float.

Definition p_init : Z := 0.
Definition d_init : Z := 0.
Definition q_init : Z := 0.

(** The values of the seventeen sliders. *)
Record sliders : Type := {
  ar_slider : Z;
  ar_lag1_slider : float;
  ar_lag2_slider : float;
  ar_lag3_slider : float;
  ar_lag4_slider : float;
  i_slider : Z;
  ma_slider : Z;
  ma_lag1_slider : float;
  ma_lag2_slider : float;
  ma_lag3_slider : float;
  ma_lag4_slider : float;
  rand_slider : Z;
  ylim_slider : Z;
  p_slider : Z;
  d_slider : Z;
  q_slider : Z
}.

(** The [value=...] each slider starts from. *)
Definition initial : sliders := {|
  ar_slider := 0;
  ar_lag1_slider := 0%float;
  ar_lag2_slider := 0%float;
  ar_lag3_slider := 0%float;
  ar_lag4_slider := 0%float;
  i_slider := 0;
  ma_slider := 0;
  ma_lag1_slider := 0%float;
  ma_lag2_slider := 0%float;
  ma_lag3_slider := 0%float;
  ma_lag4_slider := 0%float;
  rand_slider := rand_state_init;
  ylim_slider := ylim_init;
  p_slider := p_init;
  d_slider := d_init;
  q_slider := q_init
|}.

Definition between (lo hi x : Z) : bool := (lo <=? x) && (x <=? hi).

Definition between_floats (lo hi x : float) : bool :=
  PrimFloat.leb lo x && PrimFloat.leb x hi.

(** Every slider within its [min] and [max], as a slider keeps its value. *)
Definition in_range (v : sliders) : bool :=
  between int_min int_max (ar_slider v)
  && between int_min int_max (i_slider v)
  && between int_min int_max (ma_slider v)
  && between_floats lag_min lag_max (ar_lag1_slider v)
  && between_floats lag_min lag_max (ar_lag2_slider v)
  && between_floats lag_min lag_max (ar_lag3_slider v)
  && between_floats lag_min lag_max (ar_lag4_slider v)
  && between_floats lag_min lag_max (ma_lag1_slider v)
  && between_floats lag_min lag_max (ma_lag2_slider v)
  && between_floats lag_min lag_max (ma_lag3_slider v)
  && between_floats lag_min lag_max (ma_lag4_slider v)
  && between 0 10000 (rand_slider v)
  && between 1 100 (ylim_slider v)
  && between int_min int_max (p_slider v)
  && between int_min int_max (d_slider v)
  && between int_min int_max (q_slider v).

(** The call [interactive(arima_data, ...)] makes when a slider moves:
    each argument from its slider, or from its [fixed(...)] value. *)
Definition arima_w (v : sliders) : arima_args := {|
  n_samp := fixed_n_samp;
  ar_order := ar_slider v;
  ar_lag1 := ar_lag1_slider v;
  ar_lag2 := ar_lag2_slider v;
  ar_lag3 := ar_lag3_slider v;
  ar_lag4 := ar_lag4_slider v;
  i_order := i_slider v;
  ma_order := ma_slider v;
  ma_lag1 := ma_lag1_slider v;
  ma_lag2 := ma_lag2_slider v;
  ma_lag3 := ma_lag3_slider v;
  ma_lag4 := ma_lag4_slider v;
  rand_state := rand_slider v;
  ylim := ylim_slider v;
  p := p_slider v;
  d := d_slider v;
  q := q_slider v;
  n_train := fixed_n_train;
  n_forecast := fixed_n_forecast;
  dynamic := false;
  lin_trend := None;
  verbose := true
|}.

(** The call of the [on_displayed] callback: the arguments it spells out,
    the others at the defaults of [arima_data]. *)
Definition on_displayed : arima_args := {|
  n_samp := n_samp default_args;
  ar_order := 0;
  ar_lag1 := 0%float;
  ar_lag2 := 0%float;
  ar_lag3 := 0%float;
  ar_lag4 := 0%float;
  i_order := 0;
  ma_order := 0;
  ma_lag1 := 0%float;
  ma_lag2 := 0%float;
  ma_lag3 := 0%float;
  ma_lag4 := 0%float;
  rand_state := rand_state_init;
  ylim := ylim_init;
  p := p_init;
  d := d_init;
  q := q_init;
  n_train := fixed_n_train;
  n_forecast := n_forecast default_args;
  dynamic := dynamic default_args;
  lin_trend := lin_trend default_args;
  verbose := verbose default_args
|}.

(** An AR(1) setting of the sliders asking for an ARIMA(1, 1, 0). *)
Definition ar1_sliders : sliders := {|
  ar_slider := 1;
  ar_lag1_slider := 0.5%float;
  ar_lag2_slider := (-0.3)%float;
  ar_lag3_slider := 0%float;
  ar_lag4_slider := 0%float;
  i_slider := 0;
  ma_slider := 0;
  ma_lag1_slider := 0%float;
  ma_lag2_slider := 0%float;
  ma_lag3_slider := 0%float;
  ma_lag4_slider := 0%float;
  rand_slider := 42;
  ylim_slider := 5;
  p_slider := 1;
  d_slider := 1;
  q_slider := 0
|}.

End Widget.

(** The first display makes the call the sliders stand for, which is the
    call of [arima_data] with every default. *)
Lemma on_displayed_is_initial :
  Widget.on_displayed = Widget.arima_w Widget.initial
  /\ Widget.on_displayed = default_args.
Proof. split; reflexivity. Qed.

Section WidgetRuns.

Variable rng : Type.
Variable RandomState : Z -> rng.
Variable RandomState_unseeded : rng.
Variable arma_generate_sample
  : list float -> list float -> Z -> float -> rng -> Z -> list float.
Variable isstationary : list float -> list float -> Z -> bool.
Variable isinvertible : list float -> list float -> Z -> bool.
Variable results : Type.
Variable fit : sarimax_model float -> results.
Variable loglikelihood_burn : results -> Z.
Variable prediction : Type.
Variable get_prediction : results -> string -> string -> bool -> prediction.
Variable predicted_mean : prediction -> series float.
Variable conf_int : prediction -> float -> list (Timestamp * (float * float)).

Local Abbreviation series_run :=
  (generated_series RandomState RandomState_unseeded arma_generate_sample
     isstationary isinvertible).
Local Abbreviation driver :=
  (arima_data RandomState RandomState_unseeded arma_generate_sample
     isstationary isinvertible fit loglikelihood_burn get_prediction
     predicted_mean conf_int).

Lemma between_spec (lo hi x : Z) :
  Widget.between lo hi x = true <-> lo <= x <= hi.
Proof.
  unfold Widget.between.
  rewrite andb_true_iff, !Z.leb_le. reflexivity.
Qed.

(** The orders a slider setting in range declares. *)
Lemma in_range_orders (v : Widget.sliders) :
  Widget.in_range v = true ->
  0 <= Widget.ar_slider v <= 4
  /\ 0 <= Widget.i_slider v <= 4
  /\ 0 <= Widget.ma_slider v <= 4
  /\ 0 <= Widget.d_slider v <= 4.
Proof.
  unfold Widget.in_range. rewrite !andb_true_iff, !between_spec.
  unfold Widget.int_min, Widget.int_max. tauto.
Qed.


End WidgetRuns.


(** * The seasonal boxplot of the airline passengers *)

(** The cell that labels each month of the airline series with its year and
    the abbreviation of its month, pivots the series into one row per year
    and one column per month, and puts the columns in calendar order. *)
Module Seasonal.

(** [%b] in the C locale. *)
Definition month_abbr (m : Z) : string :=
  match m with
  | 1 => "Jan" | 2 => "Feb" | 3 => "Mar" | 4 => "Apr"
  | 5 => "May" | 6 => "Jun" | 7 => "Jul" | 8 => "Aug"
  | 9 => "Sep" | 10 => "Oct" | 11 => "Nov" | 12 => "Dec"
  | _ => ""
  end%string.

(** [t.strftime('%b')] *)
Definition strftime_b (t : Timestamp) : string := month_abbr (month t).

(** [pd.date_range(start='2016-01-01', periods=12, freq='MS')
       .strftime('%b')] *)
Definition month_names : list string :=
  map strftime_b (date_range {| year := 2016; month := 1; day := 1 |} 12).

(** The labels [sort_unique] keeps: each once, in increasing order. *)
Fixpoint insert_unique {A : Type} (leb eqb : A -> A -> bool) (x : A)
    (l : list A) : list A :=
  match l with
  | [] => [x]
  | y :: rest =>
      if eqb x y then l
      else if leb x y then x :: l
      else y :: insert_unique leb eqb x rest
  end.

Definition sort_unique {A : Type} (leb eqb : A -> A -> bool) (l : list A)
  : list A :=
  fold_right (insert_unique leb eqb) [] l.

Fixpoint has_duplicate (keys : list (Z * string)) : bool :=
  match keys with
  | [] => false
  | (y, m) :: rest =>
      existsb (fun k => (fst k =? y) && (snd k =? m)%string) rest
      || has_duplicate rest
  end.

Section Frames.

Context {R : Type}.

(** A row of [air] once [air['Month']] and [air['Year']] are set. *)
Record labelled_row : Type := {
  n_pass_thousands : R;
  Month : string;
  Year : Z
}.

(** [air['Month'] = air.index.strftime('%b')] and
    [air['Year'] = air.index.year] *)
Definition with_labels (air : series R) : list labelled_row :=
  map (fun e => {| n_pass_thousands := snd e;
                   Month := strftime_b (fst e);
                   Year := year (fst e) |}) air.

(** A pivoted frame: its row labels, its column labels, and the value at a
    row and a column, [None] for NaN. *)
Record pivot_table : Type := {
  index : list Z;
  columns : list string;
  cell : Z -> string -> option R
}.

(** [air.pivot(index='Year', columns='Month', values='n_pass_thousands')]:
    rows and columns are the labels that occur, sorted; a pair of labels
    that occurs twice cannot be reshaped. *)
Definition pivot (rows : list labelled_row) : outcome pivot_table :=
  if has_duplicate (map (fun r => (Year r, Month r)) rows)
  then Raise ValueError
  else Ok {| index := sort_unique Z.leb Z.eqb (map Year rows);
             columns := sort_unique String.leb String.eqb (map Month rows);
             cell := fun y m =>
                       option_map n_pass_thousands
                         (find (fun r => (Year r =? y)
                                         && (Month r =? m)%string) rows) |}.

(** [air_piv.reindex(columns=names)]: the columns asked for, in the order
    asked; one the frame does not have is all NaN. *)
Definition reindex_columns (names : list string) (t : pivot_table)
  : pivot_table :=
  {| index := index t;
     columns := names;
     cell := fun y m =>
               if existsb (String.eqb m) (columns t) then cell t y m
               else None |}.

(** [air_piv] as the boxplot gets it. *)
Definition air_piv (air : series R) : outcome pivot_table :=
  outcome_map (reindex_columns month_names) (pivot (with_labels air)).

(** The value of the month [m] of the year [y] in the series, if it has
    one. *)
Definition value_of_month (air : series R) (y m : Z) : option R :=
  option_map snd
    (find (fun e => (year (fst e) =? y) && (month (fst e) =? m)) air).

End Frames.

End Seasonal.

Section SeasonalProperties.

Import Seasonal.

Context {R : Type}.

Lemma month_abbr_inj (a b : Z) :
  1 <= a <= 12 -> 1 <= b <= 12 -> month_abbr a = month_abbr b -> a = b.
Proof.
  intros Ha Hb.
  assert (Ea : a = 1 \/ a = 2 \/ a = 3 \/ a = 4 \/ a = 5 \/ a = 6 \/ a = 7
               \/ a = 8 \/ a = 9 \/ a = 10 \/ a = 11 \/ a = 12) by lia.
  assert (Eb : b = 1 \/ b = 2 \/ b = 3 \/ b = 4 \/ b = 5 \/ b = 6 \/ b = 7
               \/ b = 8 \/ b = 9 \/ b = 10 \/ b = 11 \/ b = 12) by lia.
  clear Ha Hb.
  repeat (destruct Ea as [Ea | Ea]; [subst a | ]); subst;
    repeat (destruct Eb as [Eb | Eb]; [subst b | ]); subst;
    intros E; try reflexivity; discriminate E.
Qed.

Lemma month_abbr_eqb (a b : Z) :
  1 <= a <= 12 -> 1 <= b <= 12 ->
  (month_abbr a =? month_abbr b)%string = (a =? b).
Proof.
  intros Ha Hb.
  destruct (String.eqb_spec (month_abbr a) (month_abbr b)) as [E | E];
    destruct (Z.eqb_spec a b) as [E' | E']; try reflexivity.
  - exfalso. apply E'. now apply month_abbr_inj.
  - exfalso. apply E. now rewrite E'.
Qed.

Lemma in_insert_unique (leb : string -> string -> bool) (x z : string)
    (l : list string) :
  In z (insert_unique leb String.eqb x l) <-> z = x \/ In z l.
Proof.
  induction l as [| y l IH]; simpl.
  - intuition.
  - destruct (String.eqb_spec x y) as [-> | Hne].
    + simpl. intuition.
    + destruct (leb x y); simpl; [intuition | ].
      rewrite IH. intuition.
Qed.

Lemma in_sort_unique (leb : string -> string -> bool) (z : string)
    (l : list string) :
  In z (sort_unique leb String.eqb l) <-> In z l.
Proof.
  induction l as [| x l IH]; simpl; [reflexivity | ].
  rewrite in_insert_unique, IH. intuition.
Qed.

Lemma in_insert_unique_Z (x z : Z) (l : list Z) :
  In z (insert_unique Z.leb Z.eqb x l) <-> z = x \/ In z l.
Proof.
  induction l as [| y l IH]; simpl.
  - intuition.
  - destruct (Z.eqb_spec x y) as [-> | Hne].
    + simpl. intuition.
    + destruct (x <=? y); simpl; [intuition | ].
      rewrite IH. intuition.
Qed.

Lemma in_sort_unique_Z (z : Z) (l : list Z) :
  In z (sort_unique Z.leb Z.eqb l) <-> In z l.
Proof.
  induction l as [| x l IH]; simpl; [reflexivity | ].
  rewrite in_insert_unique_Z, IH. intuition.
Qed.

Lemma has_duplicate_spec (keys : list (Z * string)) :
  has_duplicate keys = false <-> NoDup keys.
Proof.
  induction keys as [| [y m] keys IH]; simpl.
  - split; [constructor | reflexivity].
  - rewrite orb_false_iff, IH. split.
    + intros [Hnone Hrest]. constructor; [ | exact Hrest].
      intros Hin.
      assert (Hex : existsb (fun k => (fst k =? y) && (snd k =? m)%string)
                      keys = true).
      { apply existsb_exists. exists (y, m). split; [exact Hin | ].
        simpl. now rewrite Z.eqb_refl, String.eqb_refl. }
      congruence.
    + intros Hnd. inversion Hnd as [| k ks Hnotin Hrest]; subst.
      split; [ | exact Hrest].
      destruct (existsb _ keys) eqn:Hex; [ | reflexivity].
      apply existsb_exists in Hex. destruct Hex as ([y' m'] & Hin & Hk).
      simpl in Hk. apply andb_true_iff in Hk. destruct Hk as [Hy Hm].
      apply Z.eqb_eq in Hy. apply String.eqb_eq in Hm. subst.
      contradiction.
Qed.

(** The months of a series, as numbers and as the cell labels them. *)
Definition calendar_keys (air : series R) : list (Z * Z) :=
  map (fun e => (year (fst e), month (fst e))) air.

Definition valid_months (air : series R) : Prop :=
  Forall (fun e => 1 <= month (fst e) <= 12) air.

Lemma label_keys (air : series R) :
  map (fun r => (Year r, Month r)) (with_labels air)
  = map (fun k => (fst k, month_abbr (snd k))) (calendar_keys air).
Proof.
  unfold with_labels, calendar_keys. rewrite !map_map. reflexivity.
Qed.

Lemma label_keys_NoDup (air : series R) :
  valid_months air ->
  NoDup (calendar_keys air) ->
  NoDup (map (fun r => (Year r, Month r)) (with_labels air)).
Proof.
  intros Hvalid Hnd. rewrite label_keys.
  apply NoDup_map_NoDup_ForallPairs; [ | exact Hnd].
  intros [y1 m1] [y2 m2] H1 H2 E. simpl in E.
  injection E as -> Hm.
  unfold calendar_keys in H1, H2.
  apply in_map_iff in H1. destruct H1 as (e1 & E1 & H1).
  apply in_map_iff in H2. destruct H2 as (e2 & E2 & H2).
  injection E1 as _ <-. injection E2 as _ <-.
  unfold valid_months in Hvalid. rewrite Forall_forall in Hvalid.
  f_equal. apply month_abbr_inj; auto.
Qed.

Lemma find_by_label (air : series R) (y k : Z) :
  valid_months air -> 1 <= k <= 12 ->
  option_map n_pass_thousands
    (find (fun r => (Year r =? y) && (Month r =? month_abbr k)%string)
       (with_labels air))
  = value_of_month air y k.
Proof.
  intros Hvalid Hk. unfold value_of_month, with_labels.
  induction Hvalid as [| e air He Hvalid IH]; simpl; [reflexivity | ].
  unfold strftime_b at 1. rewrite month_abbr_eqb by assumption.
  destruct ((year (fst e) =? y) && (month (fst e) =? k)); [reflexivity | ].
  exact IH.
Qed.

Lemma find_label_in_columns (rows : list (@labelled_row R)) (y : Z)
    (m : string) (r : labelled_row) :
  find (fun r => (Year r =? y) && (Month r =? m)%string) rows = Some r ->
  In m (map Month rows).
Proof.
  intros Hf. apply find_some in Hf. destruct Hf as [Hin Hp].
  apply andb_true_iff in Hp. destruct Hp as [_ Hm].
  apply String.eqb_eq in Hm. subst m. now apply in_map.
Qed.

(** X11.  For a series with at most one entry per month, the pivot can be
    reshaped, and after the reindex its columns are the twelve month names
    in calendar order, from [Jan] to [Dec]; its rows are the years of the
    series; and the column of month [k] holds, for each year, the value
    the series has for that month of that year, or NaN when it has none:
    no month is lost under a label the reindex does not ask for.  With two
    entries in one month of one year the pivot raises [ValueError]. *)
Theorem boxplot_columns_are_months (air : series R) :
  valid_months air ->
  (NoDup (calendar_keys air) ->
   exists T,
     air_piv air = Ok T
     /\ columns T = ["Jan"; "Feb"; "Mar"; "Apr"; "May"; "Jun"; "Jul"; "Aug";
                     "Sep"; "Oct"; "Nov"; "Dec"]%string
     /\ (forall y, In y (index T) <-> exists e, In e air /\ year (fst e) = y)
     /\ (forall y k, 1 <= k <= 12 ->
           nth_error (columns T) (Z.to_nat (k - 1)) = Some (month_abbr k)
           /\ cell T y (month_abbr k) = value_of_month air y k))
  /\ (~ NoDup (calendar_keys air) -> air_piv air = Raise ValueError).
Proof.
  intros Hvalid. split.
  - intros Hnd.
    pose proof (label_keys_NoDup Hvalid Hnd) as Hkeys.
    apply has_duplicate_spec in Hkeys.
    unfold air_piv, pivot. rewrite Hkeys. simpl.
    eexists. split; [reflexivity | ].
    split; [reflexivity | ]. split.
    + intros y. simpl. rewrite in_sort_unique_Z.
      unfold with_labels. rewrite map_map. simpl.
      rewrite in_map_iff. split; intros (e & He1 & He2); eauto.
    + intros y k Hk. split.
      * assert (Ek : k = 1 \/ k = 2 \/ k = 3 \/ k = 4 \/ k = 5 \/ k = 6
                     \/ k = 7 \/ k = 8 \/ k = 9 \/ k = 10 \/ k = 11
                     \/ k = 12) by lia.
        repeat (destruct Ek as [Ek | Ek]; [subst k; reflexivity | ]).
        subst k. reflexivity.
      * simpl.
        rewrite <- (find_by_label y Hvalid Hk).
        destruct (existsb _ _) eqn:Hex; [reflexivity | ].
        destruct (find _ (with_labels air)) as [r | ] eqn:Hf;
          [ | reflexivity].
        exfalso. apply find_label_in_columns in Hf.
        assert (Hex' : existsb (String.eqb (month_abbr k))
                         (sort_unique String.leb String.eqb
                            (map Month (with_labels air))) = true).
        { apply existsb_exists. exists (month_abbr k).
          split; [now apply in_sort_unique | apply String.eqb_refl]. }
        congruence.
  - intros Hdup. unfold air_piv, pivot.
    destruct (has_duplicate _) eqn:Hkeys; [reflexivity | ].
    exfalso. apply Hdup.
    apply has_duplicate_spec in Hkeys. rewrite label_keys in Hkeys.
    now apply NoDup_map_inv in Hkeys.
Qed.

End SeasonalProperties.

(** Three entries over two years: January 1950 has a value, February 1950
    has none. *)
Lemma boxplot_columns_are_months_witness :
  exists T,
    Seasonal.air_piv
      [({| year := 1949; month := 1; day := 1 |}, 112);
       ({| year := 1949; month := 2; day := 1 |}, 118);
       ({| year := 1950; month := 1; day := 1 |}, 115)] = Ok T
    /\ Seasonal.cell T 1950 "Jan" = Some 115
    /\ Seasonal.cell T 1950 "Feb" = None.
Proof.
  pose proof (boxplot_columns_are_months (R := Z)
                (air := [({| year := 1949; month := 1; day := 1 |}, 112);
                         ({| year := 1949; month := 2; day := 1 |}, 118);
                         ({| year := 1950; month := 1; day := 1 |}, 115)]))
    as W.
  destruct W as [W _]; [repeat constructor; simpl; lia | ].
  destruct W as (T & HT & _ & _ & Hcell).
  { repeat constructor; simpl; intuition discriminate. }
  exists T. split; [exact HT | ].
  split.
  - exact (proj2 (Hcell 1950 1 ltac:(lia))).
  - exact (proj2 (Hcell 1950 2 ltac:(lia))).
Defined.

(** ** Columns added and dropped *)

(** The columns of a frame by name, in their order. *)
Definition frame (C : Type) : Type := list (string * C).

Definition has_column {C : Type} (name : string) (f : frame C) : bool :=
  existsb (fun c => String.eqb (fst c) name) f.

(** [df[name] = col]: an existing column is replaced where it stands, a new
    one is appended. *)
Definition setitem {C : Type} (name : string) (col : C) (f : frame C)
  : frame C :=
  if has_column name f
  then map (fun c => if String.eqb (fst c) name then (name, col) else c) f
  else f ++ [(name, col)].

(** The outcome of a lookup by label. *)
Inductive labelled (A : Type) : Type :=
| Found (a : A)
| KeyError (label : string).

Arguments Found {A} a.
Arguments KeyError {A} label.

(** [df.drop(labels, axis=1)]: a label the frame does not have is a
    [KeyError]. *)
Definition drop_columns {C : Type} (labels : list string) (f : frame C)
  : labelled (frame C) :=
  match find (fun l => negb (has_column l f)) labels with
  | Some l => KeyError l
  | None =>
      Found (filter (fun c => negb (existsb (String.eqb (fst c)) labels)) f)
  end.

(** What the cell does to [air] around the pivot: it sets [Month] and
    [Year], and drops them again. *)
Definition label_then_drop {C : Type} (months years : C) (air : frame C)
  : labelled (frame C) :=
  drop_columns ["Month"; "Year"]%string
    (setitem "Year" years (setitem "Month" months air)).

Section Columns.

Context {C : Type}.

Lemma has_column_setitem (name other : string) (col : C) (f : frame C) :
  has_column other (setitem name col f)
  = String.eqb name other || has_column other f.
Proof.
  unfold setitem, has_column.
  destruct (existsb (fun c => String.eqb (fst c) name) f) eqn:Hex.
  - induction f as [| [n c] f IH]; simpl in *; [discriminate | ].
    destruct (String.eqb_spec n name) as [-> | Hne]; simpl.
    + destruct (String.eqb_spec name other) as [-> | Hne']; simpl;
        [reflexivity | ].
      clear IH Hex.
      induction f as [| [n' c'] f IH]; simpl; [reflexivity | ].
      destruct (String.eqb_spec n' name) as [-> | Hne'']; simpl.
      * destruct (String.eqb_spec name other); [contradiction | ].
        simpl. exact IH.
      * now rewrite IH.
    + rewrite IH by exact Hex.
      destruct (String.eqb name other), (String.eqb n other); reflexivity.
  - rewrite existsb_app. simpl. rewrite orb_false_r.
    apply orb_comm.
Qed.

Lemma filter_setitem (labels : list string) (name : string) (col : C)
    (f : frame C) :
  existsb (String.eqb name) labels = true ->
  filter (fun c => negb (existsb (String.eqb (fst c)) labels))
    (setitem name col f)
  = filter (fun c => negb (existsb (String.eqb (fst c)) labels)) f.
Proof.
  intros Hname. unfold setitem.
  destruct (has_column name f).
  - induction f as [| [n c] f IH]; simpl; [reflexivity | ].
    destruct (String.eqb_spec n name) as [-> | Hne]; simpl.
    + now rewrite Hname, IH.
    + now rewrite IH.
  - rewrite filter_app. simpl. rewrite Hname. simpl. apply app_nil_r.
Qed.

Lemma filter_absent (labels : list string) (f : frame C) :
  (forall l, In l labels -> has_column l f = false) ->
  filter (fun c => negb (existsb (String.eqb (fst c)) labels)) f = f.
Proof.
  intros Habsent.
  induction f as [| [n c] f IH]; simpl; [reflexivity | ].
  assert (Hn : existsb (String.eqb n) labels = false).
  { destruct (existsb (String.eqb n) labels) eqn:Hex; [ | reflexivity].
    apply existsb_exists in Hex. destruct Hex as (l & Hl & Hnl).
    apply String.eqb_eq in Hnl. subst l.
    specialize (Habsent n Hl). unfold has_column in Habsent. simpl in Habsent.
    now rewrite String.eqb_refl in Habsent. }
  rewrite Hn. simpl. f_equal. apply IH.
  intros l Hl. specialize (Habsent l Hl).
  unfold has_column in *. simpl in Habsent.
  now apply orb_false_iff in Habsent.
Qed.

(** X12.  Setting [Month] and [Year] and dropping them again never raises
    [KeyError], and leaves the frame with the columns it had under other
    names, in their order: a frame that had neither column comes back as it
    was, and a column that was already called [Month] or [Year] is lost. *)
Theorem labels_are_dropped_again (months years : C) (air : frame C) :
  label_then_drop months years air
  = Found (filter (fun c => negb (existsb (String.eqb (fst c))
                                    ["Month"; "Year"]%string)) air)
  /\ (has_column "Month" air = false -> has_column "Year" air = false ->
      label_then_drop months years air = Found air).
Proof.
  assert (Hdrop : label_then_drop months years air
                  = Found (filter (fun c => negb (existsb (String.eqb (fst c))
                                                    ["Month"; "Year"]%string))
                             air)).
  { unfold label_then_drop, drop_columns.
    set (labelled_air := setitem "Year" years (setitem "Month" months air)).
    assert (Hm : has_column "Month" labelled_air = true)
      by (subst labelled_air; now rewrite !has_column_setitem).
    assert (Hy : has_column "Year" labelled_air = true)
      by (subst labelled_air; now rewrite has_column_setitem).
    cbn [find]. rewrite Hm, Hy. cbn [negb].
    subst labelled_air.
    now rewrite !filter_setitem by reflexivity. }
  split; [exact Hdrop | ].
  intros Hm Hy. rewrite Hdrop. f_equal.
  apply filter_absent.
  intros l [<- | [<- | []]]; assumption.
Qed.

End Columns.

(** A frame with the passengers only, and one that came with a [Year]. *)
Lemma labels_are_dropped_again_witness :
  label_then_drop 1 2 [("n_pass_thousands"%string, 0)]
  = Found [("n_pass_thousands"%string, 0)]
  /\ label_then_drop 1 2 [("Year"%string, 7); ("n_pass_thousands"%string, 0)]
     = Found [("n_pass_thousands"%string, 0)].
Proof.
  split.
  - apply (proj2 (labels_are_dropped_again 1 2
                    [("n_pass_thousands"%string, 0)])); reflexivity.
  - exact (proj1 (labels_are_dropped_again 1 2
                    [("Year"%string, 7); ("n_pass_thousands"%string, 0)])).
Defined.

(** * The marks on the plot of the temperature *)

(** The dates the cell reads off [gtemp.index], in its order: [index[0]]
    and [index[-1]] for the shaded spans, [index[15]] and [index[-30]] for
    the two arrows. *)
Definition temperature_marks (index : list Timestamp)
  : outcome (Timestamp * Timestamp * Timestamp * Timestamp) :=
  match Py.index index 0 with
  | Raise e => Raise e
  | Ok first =>
      match Py.index index (-1) with
      | Raise e => Raise e
      | Ok last =>
          match Py.index index 15 with
          | Raise e => Raise e
          | Ok flat =>
              match Py.index index (-30) with
              | Raise e => Raise e
              | Ok rising => Ok (first, last, flat, rising)
              end
          end
      end
  end.

Lemma index_at {A : Type} (l : list A) (k : Z) (x : A) :
  index_in_bounds (Z.of_nat (length l)) k = true ->
  nth_error l (Z.to_nat (wrapped (Z.of_nat (length l)) k)) = Some x ->
  Py.index l k = Ok x.
Proof.
  intros Hk Hx. destruct (index_wrapped l k Hk) as (x' & -> & Hx').
  congruence.
Qed.

Lemma index_raises_IndexError {A : Type} (l : list A) (k : Z) (e : exn) :
  Py.index l k = Raise e -> e = IndexError.
Proof.
  unfold Py.index.
  destruct (_ || _); [congruence | ].
  destruct (nth_error l _); congruence.
Qed.

(** X13.  The cell needs a table of at least thirty rows.  With thirty or
    more, the four dates it reads are the first, the last, the sixteenth
    and the thirtieth from the end; with fewer, one of the lookups raises
    [IndexError]. *)
Theorem temperature_marks_need_thirty_rows (index : list Timestamp) :
  ((30 <= length index)%nat ->
   exists first last flat rising,
     temperature_marks index = Ok (first, last, flat, rising)
     /\ nth_error index 0 = Some first
     /\ nth_error index (length index - 1) = Some last
     /\ nth_error index 15 = Some flat
     /\ nth_error index (length index - 30) = Some rising)
  /\ ((length index < 30)%nat -> temperature_marks index = Raise IndexError).
Proof.
  split.
  - intros Hlen.
    assert (Hsome : forall i, (i < length index)%nat ->
              exists x, nth_error index i = Some x).
    { intros i Hi. destruct (nth_error index i) eqn:Hx; [eauto | ].
      apply nth_error_None in Hx. lia. }
    destruct (Hsome 0%nat ltac:(lia)) as (first & Hfirst).
    destruct (Hsome (length index - 1)%nat ltac:(lia)) as (last & Hlast).
    destruct (Hsome 15%nat ltac:(lia)) as (flat & Hflat).
    destruct (Hsome (length index - 30)%nat ltac:(lia)) as (rising & Hrising).
    exists first, last, flat, rising.
    split; [ | repeat split; assumption].
    unfold temperature_marks.
    assert (Hb : forall k, - Z.of_nat (length index) <= k
                           < Z.of_nat (length index) ->
              index_in_bounds (Z.of_nat (length index)) k = true).
    { intros k Hk. unfold index_in_bounds.
      apply andb_true_iff. split; [apply Z.leb_le | apply Z.ltb_lt]; lia. }
    assert (Hw : forall k : Z, k < 0 ->
              Z.to_nat (wrapped (Z.of_nat (length index)) k)
              = (length index - Z.to_nat (- k))%nat).
    { intros k Hk. unfold wrapped.
      destruct (Z.ltb_spec k 0); lia. }
    rewrite (index_at index 0 (x := first));
      [ | apply Hb; lia | exact Hfirst].
    rewrite (index_at index (-1) (x := last));
      [ | apply Hb; lia | rewrite Hw by lia; exact Hlast].
    rewrite (index_at index 15 (x := flat));
      [ | apply Hb; lia | exact Hflat].
    rewrite (index_at index (-30) (x := rising));
      [ | apply Hb; lia | rewrite Hw by lia; exact Hrising].
    reflexivity.
  - intros Hlen. unfold temperature_marks.
    destruct (Py.index index 0) as [first | e] eqn:H0;
      [ | now rewrite (index_raises_IndexError _ _ H0)].
    destruct (Py.index index (-1)) as [last | e] eqn:H1;
      [ | now rewrite (index_raises_IndexError _ _ H1)].
    destruct (Py.index index 15) as [flat | e] eqn:H15;
      [ | now rewrite (index_raises_IndexError _ _ H15)].
    rewrite index_out_of_bounds; [reflexivity | ].
    unfold index_in_bounds. apply andb_false_iff. left.
    apply Z.leb_gt. lia.
Qed.

(** Thirty dates are enough, twenty-nine are not. *)
Lemma temperature_marks_need_thirty_rows_witness :
  temperature_marks (date_range origin 30)
  = Ok (origin, add_months origin 29, add_months origin 15, origin)
  /\ temperature_marks (date_range origin 29) = Raise IndexError.
Proof.
  split; [reflexivity | ].
  apply (proj2 (temperature_marks_need_thirty_rows (date_range origin 29))).
  simpl. lia.
Defined.
